(** * pandera.schema_statistics: statistics of pandas objects and of schemas

    A shallow embedding of [pandera/schema_statistics.py].  The module
    converts between two descriptions of a column constraint: a mapping of
    named statistics ([min], [max], [levels]) and a list of [Check] objects.
    It also infers the statistics of data frames, series and indexes, and
    reads the statistics back from an existing schema.

    Python dictionaries holding statistics are finite maps with string keys
    ([gmap string _]), so that dictionary equality is plain equality.  The
    two registry tables are association lists in source order, because the
    forward table is iterated.  Raised exceptions are values of [exn] and
    fallible functions return a [result]. *)

From Stdlib Require Import ZArith.
From stdpp Require Import gmap strings list fin_maps.

Local Open Scope string_scope.
Local Open Scope list_scope.

(** ** Values stored in a statistics mapping *)

(** A statistic is either a numeric scalar (bounds; datetimes are read as
    their integer timestamp) or a list of category labels (levels).  The
    only float kept is [float("nan")], which is what a reduction over no
    values answers; other floating point bounds are outside this model. *)
Inductive value :=
| Num (n : Z)
| NaN
| Levels (l : list string).

#[global] Instance value_eq_dec : EqDecision value.
Proof. solve_decision. Defined.

(** Python's [a > b] on two lists: the first position where the elements
    differ decides; without one, the longer list is the greater. *)
Fixpoint list_gt (a b : list string) : bool :=
  match a, b with
  | [], _ => false
  | _ :: _, [] => true
  | x :: a', y :: b' =>
      if String.eqb x y then list_gt a' b' else String.ltb y x
  end.

(** ** Check objects (from [pandera.checks]) *)

(** Modelled from the spec: the [Check] class is imported from
    [pandera/checks.py].  A rule exposes a stable [name] identifying its
    kind and a [statistics] view with named fields for its parameters. *)
Record Check := {
  name : string;
  statistics : gmap string value;
}.

#[global] Instance Check_eq_dec : EqDecision Check.
Proof. solve_decision. Defined.

Module Checks.

(** Modelled from the spec: [Check.greater_than_or_equal_to(x)] builds the
    "at least" rule; its bound is read back as [statistics["min_value"]]. *)
Definition greater_than_or_equal_to (min_value : value) : Check :=
  {| name := "greater_than_or_equal_to";
     statistics := {[ "min_value" := min_value ]} |}.

(** Modelled from the spec: [Check.less_than_or_equal_to(x)] builds the
    "at most" rule; its bound is read back as [statistics["max_value"]]. *)
Definition less_than_or_equal_to (max_value : value) : Check :=
  {| name := "less_than_or_equal_to";
     statistics := {[ "max_value" := max_value ]} |}.

(** Modelled from the spec: [Check.isin(x)] builds the "member of set"
    rule; its set is read back as [statistics["allowed_values"]]. *)
Definition isin (allowed_values : value) : Check :=
  {| name := "isin";
     statistics := {[ "allowed_values" := allowed_values ]} |}.

End Checks.

(** ** Exceptions and results *)

Inductive exn :=
| ValueError (check_min check_max : Check) (min_value max_value : value)
    (* "checks %s and %s are incompatible, reason: min value %s > max value %s" *)
| KeyError (key : string)
| TypeError (a b : value)
    (* '>' not supported between the two operands *)
| AttributeError (attr : string)
| IndexError (i : nat).

Inductive result (A : Type) :=
| Ok (a : A)
| Raise (e : exn).
Arguments Ok {A} a.
Arguments Raise {A} e.

#[global] Instance result_ret : MRet result := fun A a => Ok a.
#[global] Instance result_bind : MBind result := fun A B f m =>
  match m with
  | Ok a => f a
  | Raise e => Raise e
  end.

Definition raises {A} (r : result A) : Prop :=
  match r with Ok _ => False | Raise _ => True end.

(** [for x in xs: acc = body(acc, x)], stopping at the first exception. *)
Fixpoint for_each {A S} (body : S -> A -> result S) (xs : list A) (acc : S)
  : result S :=
  match xs with
  | [] => Ok acc
  | x :: xs' => acc' ← body acc x; for_each body xs' acc'
  end.

(** [d[k]] on a dictionary: a missing key raises [KeyError]. *)
Definition subscript {V} (d : gmap string V) (k : string) : result V :=
  match d !! k with
  | Some v => Ok v
  | None => Raise (KeyError k)
  end.

(** [a > b] on statistic values: numbers by their order, with every
    comparison against [nan] false; lists as above; a number against a list
    is a [TypeError]. *)
Definition py_gt (a b : value) : result bool :=
  match a, b with
  | Num x, Num y => Ok (y <? x)%Z
  | Num _, NaN | NaN, Num _ | NaN, NaN => Ok false
  | Levels x, Levels y => Ok (list_gt x y)
  | _, _ => Raise (TypeError a b)
  end.

(** [d.get(k)] on a table written as a dictionary literal. *)
Fixpoint dict_get {V} (d : list (string * V)) (k : string) : option V :=
  match d with
  | [] => None
  | (k', v) :: d' => if String.eqb k k' then Some v else dict_get d' k
  end.

(** ** The registry *)

Definition STATISTICS_TO_CHECKS : list (string * (value -> Check)) :=
  [ ("min", fun x => Checks.greater_than_or_equal_to x);
    ("max", fun x => Checks.less_than_or_equal_to x);
    ("levels", fun x => Checks.isin x) ].

Definition CHECKS_TO_STATISTICS
  : list (string * (string * (Check -> result value))) :=
  [ ("greater_than_or_equal_to",
      ("min", fun x => subscript (statistics x) "min_value"));
    ("less_than_or_equal_to",
      ("max", fun x => subscript (statistics x) "max_value"));
    ("isin",
      ("levels", fun x => subscript (statistics x) "allowed_values")) ].

(** ** [parse_check_statistics] *)

(** [xs if xs else None] on a list. *)
Definition list_or_none {B} (xs : list B) : option (list B) :=
  match xs with
  | [] => None
  | _ => Some xs
  end.

(** One turn of the loop over [STATISTICS_TO_CHECKS.items()]. *)
Definition append_check (check_stats : gmap string value)
    (checks : list Check) (item : string * (value -> Check)) : list Check :=
  let '(stat, create_check_fn) := item in
  match check_stats !! stat with
  | None => checks
  | Some v => checks ++ [create_check_fn v]
  end.

Definition parse_check_statistics (check_stats : option (gmap string value))
  : option (list Check) :=
  match check_stats with
  | None => None
  | Some check_stats =>
      let checks := foldl (append_check check_stats) [] STATISTICS_TO_CHECKS in
      list_or_none checks
  end.

(** ** [parse_checks] *)

(** The loop state: [check_statistics] and [_check_memo]. *)
Definition collected : Type := gmap string value * gmap string Check.

Definition collect_check (acc : collected) (check : Check) : result collected :=
  match dict_get CHECKS_TO_STATISTICS (name check) with
  | Some (stat_name, get_stat_fn) =>
      v ← get_stat_fn check;
      Ok (<[stat_name := v]> acc.1, <[stat_name := check]> acc.2)
  | None => Ok acc
  end.

Definition collect (checks : list Check) : result collected :=
  for_each collect_check checks (∅, ∅).

(** The test after the loop: incompatible bounds raise [ValueError]. *)
Definition check_compatible (acc : collected) : result unit :=
  let '(check_statistics, _check_memo) := acc in
  match check_statistics !! "min", check_statistics !! "max" with
  | Some min_value, Some max_value =>
      gt ← py_gt min_value max_value;
      if gt : bool then
        check_min ← subscript _check_memo "min";
        check_max ← subscript _check_memo "max";
        Raise (ValueError check_min check_max min_value max_value)
      else Ok tt
  | _, _ => Ok tt
  end.

(** [d if d else None] *)
Definition or_none {V} (d : gmap string V) : option (gmap string V) :=
  if decide (d = ∅) then None else Some d.

Definition parse_checks (checks : list Check) : result (option (gmap string value)) :=
  acc ← collect checks;
  _ ← check_compatible acc;
  Ok (or_none acc.1).


(** ** Semantic types (from [pandera.dtypes]) *)

(** Modelled from the spec: the [PandasDtype] enumeration is imported from
    [pandera/dtypes.py]; these are the members this module names. *)
Inductive PandasDtype :=
| Float | Float16 | Float32 | Float64
| Int | Int8 | Int16 | Int32 | Int64
| UInt8 | UInt16 | UInt32 | UInt64
| DateTime
| Category
| Object.

#[global] Instance PandasDtype_eq_dec : EqDecision PandasDtype.
Proof. solve_decision. Defined.

Definition NUMERIC_DTYPES : list PandasDtype :=
  [ Float; Float16; Float32; Float64;
    Int; Int8; Int16; Int32; Int64;
    UInt8; UInt16; UInt32; UInt64;
    DateTime ].

(** The two parsers of the enumeration, [PandasDtype.from_str_alias] and
    [PandasDtype.from_pandas_api_type]; their tables live in
    [pandera/dtypes.py] and are taken as an interface. *)
Class DtypeParsers := {
  from_str_alias : string -> PandasDtype;
  from_pandas_api_type : string -> PandasDtype;
}.

(** ** The pandas boundary *)

(** What this module asks of an array-like pandas object [x] (a series, an
    index or one level of a multi-index). *)
Class ArrayLike (A : Type) := {
  (** [str(x.dtype)] *)
  dtype_name : A -> string;
  (** [pd.api.types.infer_dtype(x, skipna=...)] *)
  infer_dtype : A -> bool -> string;
  (** [x.isna().any()] *)
  isna_any : A -> bool;
  (** [x.min()] and [x.max()] *)
  reduce_min : A -> value;
  reduce_max : A -> value;
  (** [x.cat.categories.tolist()]; [None] when the attribute lookup raises
      [AttributeError] *)
  cat_categories : A -> option (list string);
  (** [x.categories.tolist()]; [None] when the attribute is missing *)
  categories : A -> option (list string);
  (** [x.name] *)
  array_name : A -> option string;
}.

(** An index object as [infer_index_statistics] tells them apart. *)
Inductive pd_index (A : Type) :=
| MultiIndex (levels : list A)
| Index (level : A)
| NotAnIndex (type_name : string).
Arguments MultiIndex {A} levels.
Arguments Index {A} level.
Arguments NotAnIndex {A} type_name.

(** A data frame: its labelled columns in order, and its index. *)
Record DataFrame (A : Type) := {
  df_columns : list (string * A);
  df_index : pd_index A;
}.
Arguments df_columns {A} d.
Arguments df_index {A} d.

(** ** Statistics records *)

(** The record of a data frame column: keys [pandas_dtype], [nullable] and
    [checks]. *)
Module ColumnStatistics.
Record t := mk {
  pandas_dtype : PandasDtype;
  nullable : bool;
  checks : option (gmap string value);
}.
End ColumnStatistics.

(** The record of a series or of an index level, which also has [name]. *)
Module SeriesStatistics.
Record t := mk {
  pandas_dtype : PandasDtype;
  nullable : bool;
  checks : option (gmap string value);
  name : option string;
}.
End SeriesStatistics.

(** The record of a data frame or of a data frame schema: keys [columns]
    and [index]. *)
Module TableStatistics.
Record t := mk {
  columns : option (gmap string ColumnStatistics.t);
  index : option (list SeriesStatistics.t);
}.
End TableStatistics.

(** [warnings.warn(msg, UserWarning)] *)
Inductive warning :=
| UserWarning (msg : string).

(** A list comprehension whose body may raise. *)
Fixpoint list_comp {A B} (f : A -> result B) (xs : list A) : result (list B) :=
  match xs with
  | [] => Ok []
  | x :: xs' => y ← f x; ys ← list_comp f xs'; Ok (y :: ys)
  end.

Section Inference.
Context {A : Type} {array_like : ArrayLike A} {parsers : DtypeParsers}.

Definition _get_array_type (x : A) : PandasDtype :=
  let dtype := from_str_alias (dtype_name x) in
  if decide (dtype = Object)
  then from_pandas_api_type (infer_dtype x true)
  else dtype.

Definition _get_array_check_statistics (x : A) (dtype : PandasDtype)
  : result (option (gmap string value)) :=
  check_stats ←
    (if bool_decide (dtype ∈ NUMERIC_DTYPES) || bool_decide (dtype = DateTime)
     then Ok {[ "min" := reduce_min x; "max" := reduce_max x ]}
     else if decide (dtype = Category)
     then
       categories ←
         match cat_categories x with
         | Some c => Ok c
         | None =>
             match categories x with
             | Some c => Ok c
             | None => Raise (AttributeError "categories")
             end
         end;
       Ok {[ "levels" := Levels categories ]}
     else Ok ∅);
  Ok (or_none check_stats).

Definition infer_series_statistics (series : A) : result SeriesStatistics.t :=
  let dtype := _get_array_type series in
  let nullable := isna_any series in
  checks ← _get_array_check_statistics series dtype;
  Ok (SeriesStatistics.mk dtype nullable checks (array_name series)).

Definition _index_stats (index_level : A) : result SeriesStatistics.t :=
  let dtype := _get_array_type index_level in
  let nullable := isna_any index_level in
  checks ← _get_array_check_statistics index_level dtype;
  Ok (SeriesStatistics.mk dtype nullable checks (array_name index_level)).

(** [index.get_level_values(i)] *)
Definition get_level_values (levels : list A) (i : nat) : result A :=
  match levels !! i with
  | Some x => Ok x
  | None => Raise (IndexError i)
  end.

(** The result and the warnings emitted on the way. *)
Definition infer_index_statistics (index : pd_index A)
  : result (option (list SeriesStatistics.t)) * list warning :=
  match index with
  | MultiIndex levels =>
      (index_statistics ←
         list_comp (fun i => x ← get_level_values levels i; _index_stats x)
                   (seq 0 (length levels));
       Ok (list_or_none index_statistics), [])
  | Index level =>
      (s ← _index_stats level;
       Ok (list_or_none [s]), [])
  | NotAnIndex type_name =>
      (Ok (list_or_none []),
       [UserWarning ("index type " +:+ type_name +:+
                     " not recognized, skipping index inference")])
  end.

(** One turn of the comprehension building [column_statistics]. *)
Definition column_record (df : DataFrame A)
    (column_statistics : gmap string ColumnStatistics.t)
    (item : string * PandasDtype)
  : result (gmap string ColumnStatistics.t) :=
  let '(col, dtype) := item in
  x ← match dict_get (df_columns df) col with
      | Some x => Ok x
      | None => Raise (KeyError col)
      end;
  checks ← _get_array_check_statistics x dtype;
  Ok (<[col := ColumnStatistics.mk dtype (isna_any x) checks]> column_statistics).

(** The two comprehensions that build [column_statistics]. *)
Definition infer_column_statistics (df : DataFrame A)
  : result (gmap string ColumnStatistics.t) :=
  let inferred_column_dtypes :=
    map (fun '(col, x) => (col, _get_array_type x)) (df_columns df) in
  for_each (column_record df) inferred_column_dtypes ∅.

Definition infer_dataframe_statistics (df : DataFrame A)
  : result TableStatistics.t * list warning :=
  match infer_column_statistics df with
  | Raise e => (Raise e, [])
  | Ok column_statistics =>
      let '(index, warned) := infer_index_statistics (df_index df) in
      (index ← index;
       Ok (TableStatistics.mk (or_none column_statistics) index), warned)
  end.

(** The contract on a categorical array: it exposes its categories, by
    the [.cat] accessor or by itself. *)
Definition exposes_categories (x : A) : bool :=
  if decide (_get_array_type x = Category)
  then match cat_categories x, categories x with
       | None, None => false
       | _, _ => true
       end
  else true.

End Inference.

(** ** Reading the statistics of a schema *)

(** The attributes this module reads from a column, index or series schema. *)
Module SeriesSchemaBase.
Record t := mk {
  _pandas_dtype : PandasDtype;
  nullable : bool;
  checks : list Check;
  name : option string;
}.
End SeriesSchemaBase.

(** An index schema component: a multi-index exposes [indexes], any other
    component does not. *)
Inductive IndexSchema :=
| SingleIndexSchema (component : SeriesSchemaBase.t)
| MultiIndexSchema (indexes : list SeriesSchemaBase.t).

Module DataFrameSchema.
Record t := mk {
  columns : list (string * SeriesSchemaBase.t);
  index : option IndexSchema;
}.
End DataFrameSchema.

Definition _get_series_base_schema_statistics (series_schema_base : SeriesSchemaBase.t)
  : result SeriesStatistics.t :=
  checks ← parse_checks (SeriesSchemaBase.checks series_schema_base);
  Ok (SeriesStatistics.mk
        (SeriesSchemaBase._pandas_dtype series_schema_base)
        (SeriesSchemaBase.nullable series_schema_base)
        checks
        (SeriesSchemaBase.name series_schema_base)).

Definition get_index_schema_statistics (index_schema_component : IndexSchema)
  : result (list SeriesStatistics.t) :=
  let index_components :=
    match index_schema_component with
    | MultiIndexSchema indexes => indexes
    | SingleIndexSchema component => [component]
    end in
  list_comp _get_series_base_schema_statistics index_components.

Definition get_series_schema_statistics (series_schema : SeriesSchemaBase.t)
  : result SeriesStatistics.t :=
  _get_series_base_schema_statistics series_schema.

(** One turn of the comprehension over [dataframe_schema.columns.items()]. *)
Definition schema_column_record
    (columns : gmap string ColumnStatistics.t)
    (item : string * SeriesSchemaBase.t)
  : result (gmap string ColumnStatistics.t) :=
  let '(col_name, column) := item in
  checks ← parse_checks (SeriesSchemaBase.checks column);
  Ok (<[col_name :=
          ColumnStatistics.mk (SeriesSchemaBase._pandas_dtype column)
                              (SeriesSchemaBase.nullable column)
                              checks]> columns).

Definition get_dataframe_schema_statistics (dataframe_schema : DataFrameSchema.t)
  : result TableStatistics.t :=
  columns ← for_each schema_column_record (DataFrameSchema.columns dataframe_schema) ∅;
  index ←
    match DataFrameSchema.index dataframe_schema with
    | None => Ok None
    | Some index =>
        index_statistics ← get_index_schema_statistics index;
        Ok (Some index_statistics)
    end;
  Ok (TableStatistics.mk (Some columns) index).

(** ** A small in-memory stand-in for pandas, to run the definitions *)

Inductive cell :=
| NA
| IntCell (n : Z)
| StrCell (s : string).

Definition is_na (c : cell) : bool :=
  match c with NA => true | _ => false end.

Definition is_int (c : cell) : bool :=
  match c with IntCell _ => true | _ => false end.

Definition is_str (c : cell) : bool :=
  match c with StrCell _ => true | _ => false end.

(** A series or index level: its storage type, label and entries; for a
    categorical its declared categories, and whether it is a series (with
    the [.cat] accessor) or an index (with [.categories]). *)
Record Series := {
  series_dtype : string;
  series_name : option string;
  series_values : list cell;
  series_categories : option (list string);
  series_has_cat : bool;
}.

Definition int_cells (cs : list cell) : list Z :=
  omap (fun c => match c with IntCell n => Some n | _ => None end) cs.

Definition reduce (op : Z -> Z -> Z) (cs : list cell) : value :=
  match int_cells cs with
  | [] => NaN
  | n :: ns => Num (foldl op n ns)
  end.

Definition series_infer_dtype (s : Series) (skipna : bool) : string :=
  let cs := if skipna then filter (fun c => is_na c = false) (series_values s)
            else series_values s in
  match cs with
  | [] => "empty"
  | _ =>
      if forallb is_int cs then "integer"
      else if forallb is_str cs then "string"
      else if existsb is_int cs then "mixed-integer"
      else "mixed"
  end.

#[global] Instance Series_ArrayLike : ArrayLike Series := {|
  dtype_name := series_dtype;
  infer_dtype := series_infer_dtype;
  isna_any s := existsb is_na (series_values s);
  reduce_min s := reduce Z.min (series_values s);
  reduce_max s := reduce Z.max (series_values s);
  cat_categories s := if series_has_cat s then series_categories s else None;
  categories s := if series_has_cat s then None else series_categories s;
  array_name := series_name;
|}.

(** Modelled from the spec: a parser instance for the examples.  Storage
    aliases and content categories map to their tag, and anything unknown
    maps to the generic [Object] tag rather than failing. *)
#[global] Instance sample_parsers : DtypeParsers := {|
  from_str_alias alias :=
    if String.eqb alias "int64" then Int64
    else if String.eqb alias "float64" then Float64
    else if String.eqb alias "datetime64[ns]" then DateTime
    else if String.eqb alias "category" then Category
    else Object;
  from_pandas_api_type api_type :=
    if String.eqb api_type "integer" then Int
    else if String.eqb api_type "floating" then Float
    else if String.eqb api_type "categorical" then Category
    else Object;
|}.

(** An integer level, a categorical level whose category ["c"] is declared
    but absent from the entries, a categorical index level, and an array
    stored as object that holds integers and a missing entry. *)
Definition sample_int_level : Series :=
  {| series_dtype := "int64"; series_name := Some "id";
     series_values := [IntCell 3; IntCell 1; IntCell 2];
     series_categories := None; series_has_cat := true |}.

Definition sample_categorical : Series :=
  {| series_dtype := "category"; series_name := Some "grade";
     series_values := [StrCell "a"; StrCell "b"; StrCell "a"];
     series_categories := Some ["a"; "b"; "c"]; series_has_cat := true |}.

Definition sample_categorical_index : Series :=
  {| series_dtype := "category"; series_name := Some "grade";
     series_values := [StrCell "a"; StrCell "b"];
     series_categories := Some ["a"; "b"; "c"]; series_has_cat := false |}.

Definition sample_object_integers : Series :=
  {| series_dtype := "object"; series_name := None;
     series_values := [IntCell 1; NA; IntCell 2];
     series_categories := None; series_has_cat := true |}.

(** A data frame with an integer and a categorical column. *)
Definition sample_frame : DataFrame Series :=
  {| df_columns := [("id", sample_int_level); ("grade", sample_categorical)];
     df_index := Index sample_int_level |}.

(** A schema with a bounded column, a categorical column and a plain
    index. *)
Definition sample_schema : DataFrameSchema.t :=
  DataFrameSchema.mk
    [ ("a", SeriesSchemaBase.mk Int64 false
              [Checks.greater_than_or_equal_to (Num 0)] (Some "a"));
      ("b", SeriesSchemaBase.mk Category true
              [Checks.isin (Levels ["x"; "y"])] (Some "b")) ]
    (Some (SingleIndexSchema (SeriesSchemaBase.mk Int64 false [] None))).

(** ** Vocabulary and the contract on rules *)

(** The recognised statistic names: the keys of the forward table. *)
Definition vocabulary : gset string :=
  list_to_set (STATISTICS_TO_CHECKS.*1).

(** What one rule contributes to [check_statistics]: nothing when its kind
    is not in the reverse table, else the statistic name and the value its
    extractor reads. *)
Definition contribution (check : Check) : result (option (string * value)) :=
  match dict_get CHECKS_TO_STATISTICS (name check) with
  | Some (stat_name, get_stat_fn) => v ← get_stat_fn check; Ok (Some (stat_name, v))
  | None => Ok None
  end.

Definition recognized (check : Check) : bool :=
  match dict_get CHECKS_TO_STATISTICS (name check) with
  | Some _ => true
  | None => false
  end.

(** The statistic a rule maps to, by the reverse table. *)
Definition statistic_name (check : Check) : option string :=
  fst <$> dict_get CHECKS_TO_STATISTICS (name check).

Definition is_numeric (v : value) : bool :=
  match v with
  | Num _ | NaN => true
  | Levels _ => false
  end.

(** The contract on rule objects: a rule of a recognised kind carries the
    parameter its kind names, and a bound is a numeric scalar. *)
Definition well_formed (check : Check) : bool :=
  match contribution check with
  | Ok None => true
  | Ok (Some (stat_name, v)) => String.eqb stat_name "levels" || is_numeric v
  | Raise _ => false
  end.

(** The claimed round trip at [S]: the rules built from [S] exist and
    decompose to [S] again. *)
Definition round_trips (S : gmap string value) : Prop :=
  exists checks,
    parse_check_statistics (Some S) = Some checks /\
    parse_checks checks = Ok (Some S).

(** The components [get_dataframe_schema_statistics] reads the index
    statistics from: none without an index, the [indexes] of a multi-index,
    else the component itself. *)
Definition schema_index_components (index : option IndexSchema)
  : list SeriesSchemaBase.t :=
  match index with
  | None => []
  | Some (SingleIndexSchema component) => [component]
  | Some (MultiIndexSchema indexes) => indexes
  end.

(** The column record the schema side writes for a column and its parsed
    checks. *)
Definition schema_column_statistics (column : SeriesSchemaBase.t)
    (checks : option (gmap string value)) : ColumnStatistics.t :=
  ColumnStatistics.mk (SeriesSchemaBase._pandas_dtype column)
                      (SeriesSchemaBase.nullable column) checks.

(** A series record without its [name]: the shape of a column record. *)
Definition without_name (s : SeriesStatistics.t) : ColumnStatistics.t :=
  ColumnStatistics.mk (SeriesStatistics.pandas_dtype s)
                      (SeriesStatistics.nullable s)
                      (SeriesStatistics.checks s).

(** The arrays [infer_index_statistics] takes the records from. *)
Definition index_levels {A} (index : pd_index A) : list A :=
  match index with
  | MultiIndex levels => levels
  | Index level => [level]
  | NotAnIndex _ => []
  end.

(** * Properties *)

(** ** Basic facts *)

Lemma for_each_app {A S} (body : S -> A -> result S) xs ys acc :
  for_each body (xs ++ ys) acc =
  acc' ← for_each body xs acc; for_each body ys acc'.
Proof.
  revert acc. induction xs as [|x xs IH]; intros acc; simpl; [done|].
  destruct (body acc x); simpl; auto.
Qed.

Lemma list_gt_irrefl a : list_gt a a = false.
Proof.
  induction a as [|x a IH]; simpl; [done|].
  by rewrite String.eqb_refl.
Qed.

Lemma py_gt_refl v : py_gt v v = Ok false.
Proof.
  destruct v; simpl; [|done|].
  - by rewrite Z.ltb_irrefl.
  - by rewrite list_gt_irrefl.
Qed.

Lemma or_none_nonempty {V} (d : gmap string V) : d <> ∅ -> or_none d = Some d.
Proof. intros Hd. unfold or_none. by destruct (decide (d = ∅)). Qed.

Lemma or_none_empty {V} : or_none (∅ : gmap string V) = None.
Proof. unfold or_none. by destruct (decide _). Qed.

Lemma or_none_never_empty {V} (d : gmap string V) : or_none d <> Some ∅.
Proof. unfold or_none. destruct (decide (d = ∅)); congruence. Qed.

(** The reverse table has exactly three kinds. *)
Lemma contribution_cases check :
  (name check = "greater_than_or_equal_to" /\
   contribution check =
     (v ← subscript (statistics check) "min_value"; Ok (Some ("min", v)))) \/
  (name check = "less_than_or_equal_to" /\
   contribution check =
     (v ← subscript (statistics check) "max_value"; Ok (Some ("max", v)))) \/
  (name check = "isin" /\
   contribution check =
     (v ← subscript (statistics check) "allowed_values"; Ok (Some ("levels", v)))) \/
  (recognized check = false /\ contribution check = Ok None).
Proof.
  unfold contribution, recognized, CHECKS_TO_STATISTICS, dict_get.
  destruct (String.eqb_spec (name check) "greater_than_or_equal_to") as [->|_];
    [by left|].
  destruct (String.eqb_spec (name check) "less_than_or_equal_to") as [->|_];
    [by right; left|].
  destruct (String.eqb_spec (name check) "isin") as [->|_];
    [by right; right; left|].
  by right; right; right.
Qed.

Lemma collect_check_contribution acc check :
  collect_check acc check =
  (o ← contribution check;
   match o with
   | Some (stat_name, v) =>
       Ok (<[stat_name := v]> acc.1, <[stat_name := check]> acc.2)
   | None => Ok acc
   end).
Proof.
  unfold collect_check, contribution.
  destruct (dict_get CHECKS_TO_STATISTICS (name check)) as [[s g]|]; [|done].
  by destruct (g check).
Qed.

Lemma contribution_recognized check s v :
  contribution check = Ok (Some (s, v)) -> recognized check = true.
Proof.
  unfold contribution, recognized.
  by destruct (dict_get CHECKS_TO_STATISTICS (name check)).
Qed.

Lemma contribution_unrecognized check :
  recognized check = false -> contribution check = Ok None.
Proof.
  unfold contribution, recognized.
  by destruct (dict_get CHECKS_TO_STATISTICS (name check)).
Qed.

Lemma contribution_ge v :
  contribution (Checks.greater_than_or_equal_to v) = Ok (Some ("min", v)).
Proof. reflexivity. Qed.

Lemma contribution_le v :
  contribution (Checks.less_than_or_equal_to v) = Ok (Some ("max", v)).
Proof. reflexivity. Qed.

Lemma contribution_isin v :
  contribution (Checks.isin v) = Ok (Some ("levels", v)).
Proof. reflexivity. Qed.

(** ** Building rules from statistics *)

Lemma foldl_append_check S table acc :
  foldl (append_check S) acc table =
  acc ++ omap (fun item : string * (value -> Check) =>
                 item.2 <$> S !! item.1) table.
Proof.
  revert acc. induction table as [|[stat mk] table IH]; intros acc; simpl.
  - by rewrite app_nil_r.
  - rewrite IH. destruct (S !! stat) as [v|]; simpl; [|done].
    by rewrite <- app_assoc.
Qed.

Lemma parse_check_statistics_table (S : gmap string value) :
  parse_check_statistics (Some S) =
  list_or_none
    (omap (fun item : string * (value -> Check) => item.2 <$> S !! item.1)
          STATISTICS_TO_CHECKS).
Proof. unfold parse_check_statistics. by rewrite foldl_append_check. Qed.

Lemma parse_check_statistics_explicit (S : gmap string value) :
  parse_check_statistics (Some S) =
  list_or_none
    (option_list (Checks.greater_than_or_equal_to <$> S !! "min") ++
     option_list (Checks.less_than_or_equal_to <$> S !! "max") ++
     option_list (Checks.isin <$> S !! "levels")).
Proof.
  rewrite parse_check_statistics_table. unfold STATISTICS_TO_CHECKS. simpl.
  by destruct (S !! "min"), (S !! "max"), (S !! "levels").
Qed.

(** C4.  [parse_check_statistics] maps [None] to [None].  On a mapping it
    builds one rule for each entry of the forward table whose name is a key
    of the mapping, in the order of the table, which is the at-least rule
    for [min], then the at-most rule for [max], then the member-of rule for
    [levels], and returns these rules; a mapping with all three statistics
    gives the three rules in that order, whatever other keys it has; when
    no rule was built the result is [None], never an empty list. *)
Theorem parse_check_statistics_spec :
  parse_check_statistics None = None /\
  (forall S : gmap string value,
     parse_check_statistics (Some S) =
     match omap (fun item : string * (value -> Check) => item.2 <$> S !! item.1)
                STATISTICS_TO_CHECKS with
     | [] => None
     | rule :: rules => Some (rule :: rules)
     end) /\
  (forall S : gmap string value,
     parse_check_statistics (Some S) =
     match option_list (Checks.greater_than_or_equal_to <$> S !! "min") ++
           option_list (Checks.less_than_or_equal_to <$> S !! "max") ++
           option_list (Checks.isin <$> S !! "levels") with
     | [] => None
     | rule :: rules => Some (rule :: rules)
     end) /\
  (forall (S : gmap string value) (a b c : value),
     S !! "min" = Some a -> S !! "max" = Some b -> S !! "levels" = Some c ->
     parse_check_statistics (Some S) =
     Some [Checks.greater_than_or_equal_to a;
           Checks.less_than_or_equal_to b;
           Checks.isin c]) /\
  (forall (S : gmap string value) (b : value),
     S !! "min" = None -> S !! "max" = Some b -> S !! "levels" = None ->
     parse_check_statistics (Some S) = Some [Checks.less_than_or_equal_to b]) /\
  (forall S : gmap string value,
     S !! "min" = None -> S !! "max" = None -> S !! "levels" = None ->
     parse_check_statistics (Some S) = None) /\
  (forall S : option (gmap string value),
     parse_check_statistics S <> Some []).
Proof.
  split; [done|]. split; [|split; [|split; [|split; [|split]]]].
  - intros S. rewrite parse_check_statistics_table. unfold list_or_none.
    by destruct (omap _ _).
  - intros S. rewrite parse_check_statistics_explicit. unfold list_or_none.
    by destruct (_ ++ _).
  - intros S a b c Ha Hb Hc.
    by rewrite parse_check_statistics_explicit, Ha, Hb, Hc.
  - intros S b Ha Hb Hc.
    by rewrite parse_check_statistics_explicit, Ha, Hb, Hc.
  - intros S Ha Hb Hc.
    by rewrite parse_check_statistics_explicit, Ha, Hb, Hc.
  - intros [S|]; [|done]. rewrite parse_check_statistics_table.
    by destruct (omap _ _).
Qed.

Lemma parse_check_statistics_spec_witness :
  parse_check_statistics
    (Some {[ "levels" := Levels ["a"; "b"]; "max" := Num 5; "min" := Num 1;
             "median" := Num 3 ]}) =
    Some [Checks.greater_than_or_equal_to (Num 1);
          Checks.less_than_or_equal_to (Num 5);
          Checks.isin (Levels ["a"; "b"])] /\
  parse_check_statistics (Some {[ "max" := Num 5 ]}) =
    Some [Checks.less_than_or_equal_to (Num 5)] /\
  parse_check_statistics (Some {[ "median" := Num 3 ]}) = None.
Proof.
  destruct parse_check_statistics_spec as (_ & _ & _ & Hall & Hmax & Hnone & _).
  split; [|split].
  - apply Hall; vm_compute; reflexivity.
  - apply Hmax; vm_compute; reflexivity.
  - apply Hnone; vm_compute; reflexivity.
Defined.

(** ** Round trip *)

Lemma vocabulary_elem k :
  k ∈ vocabulary <-> k = "min" \/ k = "max" \/ k = "levels".
Proof.
  unfold vocabulary. simpl.
  rewrite !elem_of_union, !elem_of_singleton, elem_of_empty. tauto.
Qed.

Lemma stats_ext (S T : gmap string value) :
  dom S ⊆ vocabulary -> dom T ⊆ vocabulary ->
  S !! "min" = T !! "min" ->
  S !! "max" = T !! "max" ->
  S !! "levels" = T !! "levels" ->
  S = T.
Proof.
  intros HS HT Hmin Hmax Hlev. apply map_eq. intros k.
  destruct (decide (k = "min")) as [->|Hk1]; [done|].
  destruct (decide (k = "max")) as [->|Hk2]; [done|].
  destruct (decide (k = "levels")) as [->|Hk3]; [done|].
  assert (Hout : k ∉ vocabulary) by (rewrite vocabulary_elem; tauto).
  transitivity (@None value); [|symmetry]; apply not_elem_of_dom; set_solver.
Qed.

Lemma parse_checks_unfold checks acc :
  collect checks = Ok acc ->
  parse_checks checks = (_ ← check_compatible acc; Ok (or_none acc.1)).
Proof. intros Hc. unfold parse_checks. by rewrite Hc. Qed.

Lemma collect_snoc checks check :
  collect (checks ++ [check]) =
  (acc ← collect checks; collect_check acc check).
Proof.
  unfold collect. rewrite for_each_app.
  destruct (for_each collect_check checks (∅, ∅)) as [acc|]; simpl; [|done].
  by destruct (collect_check acc check).
Qed.

Lemma collect_check_built acc check s v :
  contribution check = Ok (Some (s, v)) ->
  collect_check acc check = Ok (<[s := v]> acc.1, <[s := check]> acc.2).
Proof. intros Hc. by rewrite collect_check_contribution, Hc. Qed.

Ltac run_collect :=
  unfold collect; simpl for_each;
  repeat (first
    [ rewrite (collect_check_built _ _ _ _ (contribution_ge _))
    | rewrite (collect_check_built _ _ _ _ (contribution_le _))
    | rewrite (collect_check_built _ _ _ _ (contribution_isin _)) ];
    simpl mbind; unfold result_bind at 1; simpl fst; simpl snd).

Lemma check_compatible_ok st memo :
  (forall a b, st !! "min" = Some a -> st !! "max" = Some b ->
               py_gt a b = Ok false) ->
  check_compatible (st, memo) = Ok tt.
Proof.
  intros Hcmp. unfold check_compatible.
  destruct (st !! "min") as [a|]; [|done].
  destruct (st !! "max") as [b|]; [|done].
  by rewrite (Hcmp a b).
Qed.

Lemma dom_insert_vocabulary (T : gmap string value) k v :
  k ∈ vocabulary -> dom T ⊆ vocabulary -> dom (<[k := v]> T) ⊆ vocabulary.
Proof.
  intros Hk HT. rewrite dom_insert_L.
  intros x [->%elem_of_singleton | Hx]%elem_of_union; auto.
Qed.

Lemma dom_empty_vocabulary : dom (∅ : gmap string value) ⊆ vocabulary.
Proof. rewrite dom_empty_L. apply empty_subseteq. Qed.

Lemma dom_singleton_vocabulary k (v : value) :
  k ∈ vocabulary -> dom ({[ k := v ]} : gmap string value) ⊆ vocabulary.
Proof. intros Hk. rewrite dom_singleton_L. by apply singleton_subseteq_l. Qed.

Create HintDb stats.
#[local] Hint Resolve dom_insert_vocabulary dom_empty_vocabulary
  dom_singleton_vocabulary : stats.

Lemma min_in_vocabulary : "min" ∈ vocabulary.
Proof. apply vocabulary_elem. auto. Qed.
Lemma max_in_vocabulary : "max" ∈ vocabulary.
Proof. apply vocabulary_elem. auto. Qed.
Lemma levels_in_vocabulary : "levels" ∈ vocabulary.
Proof. apply vocabulary_elem. auto. Qed.

#[local] Hint Resolve min_in_vocabulary max_in_vocabulary levels_in_vocabulary
  : stats.

(** C1, amended.  For every non-empty statistics mapping [S] whose keys all
    lie in the vocabulary [min], [max], [levels] and whose [min] is not
    greater than its [max] when both are present, the rules built from [S]
    decompose to [S] again. *)
Theorem round_trip (S : gmap string value) :
  S <> ∅ ->
  dom S ⊆ vocabulary ->
  (forall a b, S !! "min" = Some a -> S !! "max" = Some b ->
               py_gt a b = Ok false) ->
  round_trips S.
Proof.
  intros Hne Hdom Hcmp. unfold round_trips.
  rewrite parse_check_statistics_explicit.
  destruct (S !! "min") as [a|] eqn:Hmin;
  destruct (S !! "max") as [b|] eqn:Hmax;
  destruct (S !! "levels") as [c|] eqn:Hlev; simpl.
  8: { exfalso. apply Hne.
       apply stats_ext; rewrite ?lookup_empty; auto with stats. }
  all: eexists; split; [reflexivity|].
  all: erewrite parse_checks_unfold by (run_collect; reflexivity).
  all: simpl fst.
  all: match goal with
       | |- context [or_none ?T] =>
           assert (HT : T = S)
             by (symmetry; apply stats_ext; auto with stats;
                 by simplify_map_eq);
           rewrite HT
       end.
  all: rewrite check_compatible_ok, or_none_nonempty; try done.
  all: intros x y Hx Hy; apply Hcmp; congruence.
Qed.

(** C1 is false as stated: the mapping [{min: 10, max: 5}] has recognised
    keys only, its rules are built, and decomposing them raises. *)
Lemma round_trip_fails_on_incompatible_bounds :
  dom ({[ "min" := Num 10; "max" := Num 5 ]} : gmap string value)
    ⊆ vocabulary /\
  parse_check_statistics (Some {[ "min" := Num 10; "max" := Num 5 ]}) =
    Some [Checks.greater_than_or_equal_to (Num 10);
          Checks.less_than_or_equal_to (Num 5)] /\
  parse_checks [Checks.greater_than_or_equal_to (Num 10);
                Checks.less_than_or_equal_to (Num 5)] =
    Raise (ValueError (Checks.greater_than_or_equal_to (Num 10))
                      (Checks.less_than_or_equal_to (Num 5))
                      (Num 10) (Num 5)) /\
  ~ round_trips {[ "min" := Num 10; "max" := Num 5 ]}.
Proof.
  assert (Hp : parse_check_statistics (Some {[ "min" := Num 10; "max" := Num 5 ]}) =
    Some [Checks.greater_than_or_equal_to (Num 10);
          Checks.less_than_or_equal_to (Num 5)]) by (vm_compute; reflexivity).
  assert (Hr : parse_checks [Checks.greater_than_or_equal_to (Num 10);
                Checks.less_than_or_equal_to (Num 5)] =
    Raise (ValueError (Checks.greater_than_or_equal_to (Num 10))
                      (Checks.less_than_or_equal_to (Num 5))
                      (Num 10) (Num 5))) by (vm_compute; reflexivity).
  split; [by auto with stats|]. split; [exact Hp|]. split; [exact Hr|].
  intros (checks & Hp' & Hr'). rewrite Hp in Hp'. injection Hp' as <-.
  rewrite Hr in Hr'. discriminate.
Qed.

(** The empty mapping does not round-trip either: no rule is built and the
    result is [None], which [parse_checks] cannot iterate. *)
Lemma round_trip_fails_on_empty :
  parse_check_statistics (Some ∅) = None /\ ~ round_trips ∅.
Proof.
  split; [reflexivity|]. intros (checks & Hp & _). discriminate.
Qed.

Lemma round_trip_witness :
  ({[ "min" := Num 1; "max" := Num 5 ]} : gmap string value) <> ∅ /\
  dom ({[ "min" := Num 1; "max" := Num 5 ]} : gmap string value)
    ⊆ vocabulary /\
  round_trips {[ "min" := Num 1; "max" := Num 5 ]}.
Proof.
  assert (Hne : ({[ "min" := Num 1; "max" := Num 5 ]} : gmap string value) <> ∅)
    by apply insert_non_empty.
  assert (Hdom : dom ({[ "min" := Num 1; "max" := Num 5 ]} : gmap string value)
                   ⊆ vocabulary) by auto with stats.
  split; [exact Hne|]. split; [exact Hdom|].
  apply (round_trip _ Hne Hdom).
  intros a b Ha Hb. vm_compute in Ha, Hb.
  injection Ha as <-. injection Hb as <-. reflexivity.
Defined.

(** ** The loop of [parse_checks] *)

Lemma statistic_name_contribution check s v :
  contribution check = Ok (Some (s, v)) -> statistic_name check = Some s.
Proof.
  unfold contribution, statistic_name.
  destruct (dict_get CHECKS_TO_STATISTICS (name check)) as [[s' g]|]; [|done].
  destruct (g check); simpl; congruence.
Qed.

Lemma collect_snoc_inv checks check st memo :
  collect (checks ++ [check]) = Ok (st, memo) ->
  exists acc,
    collect checks = Ok acc /\
    ((exists s v, contribution check = Ok (Some (s, v)) /\
                  st = <[s := v]> acc.1 /\ memo = <[s := check]> acc.2) \/
     (contribution check = Ok None /\ (st, memo) = acc)).
Proof.
  rewrite collect_snoc. destruct (collect checks) as [acc|]; [|done].
  simpl. rewrite collect_check_contribution.
  destruct (contribution check) as [[[s v]|]|]; simpl; [| |done].
  - intros [= <- <-]. exists acc. split; [done|]. left. by exists s, v.
  - intros [= <-]. exists acc. split; [done|]. by right.
Qed.

(** After the loop, the memo holds a rule for exactly the collected
    statistics, and each memoised rule is a rule of the input whose
    extracted value is the collected one. *)
Lemma collect_memo checks st memo :
  collect checks = Ok (st, memo) ->
  (forall s v, st !! s = Some v -> is_Some (memo !! s)) /\
  (forall s c, memo !! s = Some c ->
     c ∈ checks /\ exists v, contribution c = Ok (Some (s, v)) /\ st !! s = Some v).
Proof.
  revert st memo. induction checks as [|d checks IH] using rev_ind;
    intros st memo Hc.
  - injection Hc as <- <-. split; intros s ?; by rewrite lookup_empty.
  - apply collect_snoc_inv in Hc as ([st0 memo0] & Hc0 & Hd).
    destruct (IH _ _ Hc0) as [IH1 IH2].
    destruct Hd as [(s' & v' & Hd & -> & ->) | [Hd [= -> ->]]]; simpl.
    + split.
      * intros s v. destruct (decide (s' = s)) as [->|Hne].
        -- rewrite !lookup_insert_eq. eauto.
        -- rewrite !lookup_insert_ne by done. apply IH1.
      * intros s c. destruct (decide (s' = s)) as [->|Hne].
        -- rewrite !lookup_insert_eq. intros [= <-].
           split; [apply elem_of_app; right; apply list_elem_of_singleton; done|].
           eauto.
        -- rewrite !lookup_insert_ne by done. intros Hm.
           destruct (IH2 _ _ Hm) as [Hin Hv].
           split; [apply elem_of_app; by left | done].
    + split; [done|]. intros s c Hm. destruct (IH2 _ _ Hm) as [Hin Hv].
      split; [apply elem_of_app; by left | done].
Qed.

(** The last rule of a statistic decides what is collected for it. *)
Lemma collect_last pre c post s v st memo :
  contribution c = Ok (Some (s, v)) ->
  Forall (fun c' => statistic_name c' <> Some s) post ->
  collect (pre ++ c :: post) = Ok (st, memo) ->
  st !! s = Some v /\ memo !! s = Some c.
Proof.
  intros Hc. revert st memo.
  induction post as [|d post IH] using rev_ind; intros st memo Hpost Hcol.
  - apply collect_snoc_inv in Hcol as (acc & _ & Hd).
    destruct Hd as [(s' & v' & Hd & -> & ->) | [Hd _]]; [|congruence].
    rewrite Hc in Hd. injection Hd as <- <-. by rewrite !lookup_insert_eq.
  - apply Forall_app in Hpost as [Hpost Hd]. rewrite Forall_singleton in Hd.
    replace (pre ++ c :: post ++ [d]) with ((pre ++ c :: post) ++ [d]) in Hcol
      by (by rewrite <- app_assoc).
    apply collect_snoc_inv in Hcol as ([st0 memo0] & Hc0 & Hd').
    specialize (IH _ _ Hpost Hc0).
    destruct Hd' as [(s' & v' & Hd' & -> & ->) | [_ [= -> ->]]]; [|done].
    apply statistic_name_contribution in Hd'.
    assert (s' <> s) by (intros ->; by apply Hd).
    simpl. by rewrite !lookup_insert_ne.
Qed.

(** Rules that keep the contract never make the loop raise. *)
Lemma collect_total checks :
  Forall (fun c => well_formed c = true) checks ->
  exists st memo, collect checks = Ok (st, memo).
Proof.
  induction checks as [|d checks IH] using rev_ind; intros Hwf.
  - by exists ∅, ∅.
  - apply Forall_app in Hwf as [Hwf Hd]. rewrite Forall_singleton in Hd.
    destruct (IH Hwf) as (st & memo & Hc).
    rewrite collect_snoc, Hc. simpl. rewrite collect_check_contribution.
    unfold well_formed in Hd.
    destruct (contribution d) as [[[s v]|]|]; simpl; [eauto..|done].
Qed.

(** With such rules, the collected bounds are numeric scalars. *)
Lemma collect_numeric checks st memo s v :
  Forall (fun c => well_formed c = true) checks ->
  collect checks = Ok (st, memo) ->
  st !! s = Some v -> s <> "levels" -> is_numeric v = true.
Proof.
  intros Hwf Hc Hs Hne.
  destruct (collect_memo _ _ _ Hc) as [H1 H2].
  destruct (H1 _ _ Hs) as [c Hm].
  destruct (H2 _ _ Hm) as (Hin & v' & Hcon & Hv').
  rewrite Forall_forall in Hwf. specialize (Hwf _ Hin).
  unfold well_formed in Hwf. rewrite Hcon in Hwf.
  assert (v' = v) as -> by congruence.
  destruct (String.eqb_spec s "levels"); [done|]. done.
Qed.

Lemma py_gt_numeric a b :
  is_numeric a = true -> is_numeric b = true ->
  exists gt, py_gt a b = Ok gt.
Proof. destruct a, b; simpl; intros; try done; eauto. Qed.

(** The test after the loop, case by case. *)
Lemma check_compatible_raise st memo a b cmin cmax :
  st !! "min" = Some a -> st !! "max" = Some b ->
  py_gt a b = Ok true ->
  memo !! "min" = Some cmin -> memo !! "max" = Some cmax ->
  check_compatible (st, memo) = Raise (ValueError cmin cmax a b).
Proof.
  intros Ha Hb Hgt Hcmin Hcmax. unfold check_compatible, subscript.
  by rewrite Ha, Hb, Hgt, Hcmin, Hcmax.
Qed.

Lemma check_compatible_cases st memo :
  (forall s v, st !! s = Some v -> is_Some (memo !! s)) ->
  (forall s v, st !! s = Some v -> s <> "levels" -> is_numeric v = true) ->
  (check_compatible (st, memo) = Ok tt /\
   forall a b, st !! "min" = Some a -> st !! "max" = Some b ->
               py_gt a b = Ok false) \/
  (exists a b cmin cmax,
     st !! "min" = Some a /\ st !! "max" = Some b /\
     py_gt a b = Ok true /\
     memo !! "min" = Some cmin /\ memo !! "max" = Some cmax /\
     check_compatible (st, memo) = Raise (ValueError cmin cmax a b)).
Proof.
  intros Hmemo Hnum.
  destruct (st !! "min") as [a|] eqn:Ha; cycle 1.
  { left. split; [|done]. unfold check_compatible. by rewrite Ha. }
  destruct (st !! "max") as [b|] eqn:Hb; cycle 1.
  { left. split; [|done]. unfold check_compatible. by rewrite Ha, Hb. }
  destruct (py_gt_numeric a b) as [gt Hgt].
  { by apply (Hnum "min"). }
  { by apply (Hnum "max"). }
  destruct gt.
  - right. destruct (Hmemo _ _ Ha) as [cmin Hcmin].
    destruct (Hmemo _ _ Hb) as [cmax Hcmax].
    exists a, b, cmin, cmax. repeat split; try done.
    by apply check_compatible_raise.
  - left. split.
    + unfold check_compatible. by rewrite Ha, Hb, Hgt.
    + by intros ? ? [= <-] [= <-].
Qed.

Lemma py_gt_Num a b : py_gt (Num a) (Num b) = Ok true <-> (b < a)%Z.
Proof.
  simpl. split.
  - intros [= Hlt]. by apply Z.ltb_lt.
  - intros Hlt. f_equal. by apply Z.ltb_lt.
Qed.

Lemma lookup_Some_nonempty {V} (d : gmap string V) k v :
  d !! k = Some v -> d <> ∅.
Proof. intros Hk ->. by rewrite lookup_empty in Hk. Qed.

(** ** Incompatible bounds *)







(** ** Duplicate statistics *)

(** C5.  Let [c] be a rule of the input that maps to the statistic [s] with
    extracted value [v], and let no rule after [c] map to [s].  Then,
    whatever rules come before [c], the loop of [parse_checks] ends with
    [v] recorded for [s] and [c] memoised for [s]; the result is either the
    collected mapping, or the incompatibility error built from the collected
    bounds and the memoised rules, so that for [s = min] (or [max]) the
    rule and value it reports are [c] and [v]. *)
Theorem last_rule_wins (pre : list Check) (c : Check) (post : list Check)
    (s : string) (v : value) :
  Forall (fun c' => well_formed c' = true) (pre ++ c :: post) ->
  contribution c = Ok (Some (s, v)) ->
  Forall (fun c' => statistic_name c' <> Some s) post ->
  exists st memo,
    collect (pre ++ c :: post) = Ok (st, memo) /\
    st !! s = Some v /\
    memo !! s = Some c /\
    (parse_checks (pre ++ c :: post) = Ok (Some st) \/
     exists check_min check_max min_value max_value,
       parse_checks (pre ++ c :: post) =
         Raise (ValueError check_min check_max min_value max_value) /\
       st !! "min" = Some min_value /\ memo !! "min" = Some check_min /\
       st !! "max" = Some max_value /\ memo !! "max" = Some check_max /\
       (s = "min" -> check_min = c /\ min_value = v) /\
       (s = "max" -> check_max = c /\ max_value = v)).
Proof.
  intros Hwf Hcon Hpost.
  destruct (collect_total _ Hwf) as (st & memo & Hc).
  destruct (collect_last _ _ _ _ _ _ _ Hcon Hpost Hc) as [Hs Hm].
  exists st, memo. do 3 (split; [done|]).
  rewrite (parse_checks_unfold _ _ Hc). simpl fst.
  destruct (collect_memo _ _ _ Hc) as [Hmemo Hsrc].
  destruct (check_compatible_cases st memo Hmemo) as
    [[Hok Hle] | (a & b & cmin & cmax & Ha & Hb & Hgt & Hcmin & Hcmax & Hraise)].
  { intros s' v'. by apply collect_numeric with (checks := pre ++ c :: post)
                                               (memo := memo). }
  - left. rewrite Hok. simpl. f_equal. apply or_none_nonempty.
    by apply lookup_Some_nonempty with s v.
  - right. exists cmin, cmax, a, b. rewrite Hraise. simpl.
    do 5 (split; [done|]).
    split; intros ->; split; congruence.
Qed.

Lemma last_rule_wins_witness :
  parse_checks [Checks.greater_than_or_equal_to (Num 1);
                Checks.less_than_or_equal_to (Num 9);
                Checks.greater_than_or_equal_to (Num 3)] =
    Ok (Some {[ "min" := Num 3; "max" := Num 9 ]}) /\
  exists st memo,
    collect [Checks.greater_than_or_equal_to (Num 1);
             Checks.less_than_or_equal_to (Num 9);
             Checks.greater_than_or_equal_to (Num 3)] = Ok (st, memo) /\
    st !! "min" = Some (Num 3) /\
    memo !! "min" = Some (Checks.greater_than_or_equal_to (Num 3)).
Proof.
  split; [vm_compute; reflexivity|].
  destruct (last_rule_wins
              [Checks.greater_than_or_equal_to (Num 1);
               Checks.less_than_or_equal_to (Num 9)]
              (Checks.greater_than_or_equal_to (Num 3)) [] "min" (Num 3))
    as (st & memo & Hc & Hs & Hm & _).
  - repeat constructor.
  - reflexivity.
  - constructor.
  - exists st, memo. split; [exact Hc|]. split; [exact Hs | exact Hm].
Defined.

(** ** Equal bounds *)

(** C9.  The comparison of the bounds is strict: when the loop of
    [parse_checks] collects the same value for [min] and for [max], no
    error is raised and the collected mapping is returned. *)
Theorem equal_bounds_do_not_raise (checks : list Check)
    (st : gmap string value) (memo : gmap string Check) (v : value) :
  collect checks = Ok (st, memo) ->
  st !! "min" = Some v ->
  st !! "max" = Some v ->
  parse_checks checks = Ok (Some st).
Proof.
  intros Hc Hmin Hmax. rewrite (parse_checks_unfold _ _ Hc).
  rewrite check_compatible_ok.
  - simpl. f_equal. apply or_none_nonempty.
    by apply lookup_Some_nonempty with "min" v.
  - intros a b Ha Hb.
    assert (a = v) as -> by congruence.
    assert (b = v) as -> by congruence.
    apply py_gt_refl.
Qed.

(** At-least 5 together with at-most 5 decomposes to [{min: 5, max: 5}]. *)
Lemma equal_bounds_do_not_raise_witness :
  parse_checks [Checks.greater_than_or_equal_to (Num 5);
                Checks.less_than_or_equal_to (Num 5)] =
  Ok (Some {[ "min" := Num 5; "max" := Num 5 ]}).
Proof.
  eapply (equal_bounds_do_not_raise _ _ _ (Num 5)).
  - vm_compute. reflexivity.
  - vm_compute. reflexivity.
  - vm_compute. reflexivity.
Defined.

(** ** Rules of an unknown kind *)

Lemma for_each_filter_recognized checks acc :
  for_each collect_check checks acc =
  for_each collect_check (List.filter recognized checks) acc.
Proof.
  revert acc. induction checks as [|c checks IH]; intros acc; simpl; [done|].
  destruct (recognized c) eqn:Hrec; simpl.
  - destruct (collect_check acc c); simpl; [apply IH | done].
  - rewrite collect_check_contribution, contribution_unrecognized by done.
    simpl. apply IH.
Qed.

Lemma parse_checks_filter_recognized checks :
  parse_checks checks = parse_checks (List.filter recognized checks).
Proof.
  unfold parse_checks, collect. by rewrite for_each_filter_recognized.
Qed.

Lemma parse_checks_nil : parse_checks [] = Ok None.
Proof. unfold parse_checks, collect. simpl. by rewrite or_none_empty. Qed.

Lemma filter_unrecognized checks :
  Forall (fun c => recognized c = false) checks ->
  List.filter recognized checks = [].
Proof.
  induction 1 as [|c checks Hc _ IH]; simpl; [done|]. by rewrite Hc.
Qed.

(** C10.  Rules whose kind is not in the reverse table are ignored by
    [parse_checks]: on every input the outcome, value or error, is the one
    of the input with these rules left out; removing one such rule anywhere
    changes nothing; and an input made only of such rules, the empty input
    included, gives [None]. *)
Theorem unrecognized_rules_are_ignored :
  (forall checks,
     parse_checks checks = parse_checks (List.filter recognized checks)) /\
  (forall pre c post,
     recognized c = false ->
     parse_checks (pre ++ c :: post) = parse_checks (pre ++ post)) /\
  (forall checks,
     Forall (fun c => recognized c = false) checks ->
     parse_checks checks = Ok None) /\
  parse_checks [] = Ok None.
Proof.
  split; [exact parse_checks_filter_recognized|]. split; [|split].
  - intros pre c post Hc.
    rewrite (parse_checks_filter_recognized (pre ++ c :: post)).
    rewrite (parse_checks_filter_recognized (pre ++ post)).
    rewrite !List.filter_app. simpl. by rewrite Hc.
  - intros checks Hall. rewrite parse_checks_filter_recognized.
    rewrite filter_unrecognized by done. apply parse_checks_nil.
  - apply parse_checks_nil.
Qed.

Lemma unrecognized_rules_are_ignored_witness :
  parse_checks [ {| name := "is_positive"; statistics := ∅ |};
                 Checks.greater_than_or_equal_to (Num 1);
                 {| name := "custom"; statistics := {[ "min_value" := Num 7 ]} |} ]
  = parse_checks [Checks.greater_than_or_equal_to (Num 1)] /\
  parse_checks [ {| name := "is_positive"; statistics := ∅ |};
                 {| name := "custom"; statistics := {[ "min_value" := Num 7 ]} |} ]
  = Ok None.
Proof.
  destruct unrecognized_rules_are_ignored as (Hfilter & _ & Hnone & _).
  split.
  - rewrite Hfilter. reflexivity.
  - apply Hnone. repeat constructor.
Defined.

(** ** Inference from pandas objects *)

Lemma list_comp_Forall2 {A B} (f : A -> result B) xs ys :
  list_comp f xs = Ok ys <-> Forall2 (fun x y => f x = Ok y) xs ys.
Proof.
  revert ys. induction xs as [|x xs IH]; intros ys; simpl.
  - split; [intros [= <-]; constructor | by inversion 1].
  - destruct (f x) as [y|e] eqn:Hx; simpl.
    + destruct (list_comp f xs) as [ys'|e] eqn:Hxs; simpl.
      * split.
        -- intros [= <-]. constructor; [done|]. by apply IH.
        -- inversion 1 as [|? y' ? ys'' Hy Hrest]; subst.
           apply IH in Hrest. congruence.
      * split; [done|]. inversion 1 as [|? y' ? ys'' Hy Hrest]; subst.
        apply IH in Hrest. done.
    + split; [done|]. inversion 1; congruence.
Qed.

Lemma list_comp_total {A B} (f : A -> result B) xs :
  Forall (fun x => exists y, f x = Ok y) xs ->
  exists ys, list_comp f xs = Ok ys.
Proof.
  induction 1 as [|x xs [y Hy] _ [ys IH]]; simpl; [by eexists|].
  rewrite Hy, IH. simpl. by eexists.
Qed.

Lemma list_or_none_cons {B} (x : B) xs : list_or_none (x :: xs) = Some (x :: xs).
Proof. done. Qed.

Lemma list_or_none_never_empty {B} (xs : list B) : list_or_none xs <> Some [].
Proof. by destruct xs. Qed.

Section InferenceFacts.
Context {A : Type} {array_like : ArrayLike A} {parsers : DtypeParsers}.

(** Reading the levels by position is reading them in order. *)
Lemma list_comp_levels {B} (f : A -> result B) (pre levels : list A) :
  list_comp (fun i => x ← get_level_values (pre ++ levels) i; f x)
            (seq (length pre) (length levels)) =
  list_comp f levels.
Proof.
  revert pre. induction levels as [|x levels IH]; intros pre; simpl; [done|].
  assert (Hmid : get_level_values (pre ++ x :: levels) (length pre) = Ok x)
    by (unfold get_level_values; by rewrite list_lookup_middle).
  rewrite Hmid. simpl.
  destruct (f x) as [y|e]; simpl; [|done].
  specialize (IH (pre ++ [x])).
  rewrite <- app_assoc, length_app in IH. simpl in IH.
  replace (length pre + 1) with (S (length pre)) in IH by lia.
  by rewrite IH.
Qed.

Lemma _get_array_check_statistics_total (x : A) :
  exposes_categories x = true ->
  exists checks, _get_array_check_statistics x (_get_array_type x) = Ok checks.
Proof.
  unfold exposes_categories, _get_array_check_statistics. intros Hx.
  destruct (bool_decide (_get_array_type x ∈ NUMERIC_DTYPES)
            || bool_decide (_get_array_type x = DateTime)); simpl; [by eexists|].
  destruct (decide (_get_array_type x = Category)); simpl; [|by eexists].
  destruct (cat_categories x); simpl; [by eexists|].
  destruct (categories x); simpl; [by eexists | done].
Qed.

Lemma _index_stats_total (x : A) :
  exposes_categories x = true -> exists r, _index_stats x = Ok r.
Proof.
  intros Hx. unfold _index_stats.
  destruct (_get_array_check_statistics_total x Hx) as [checks ->].
  simpl. by eexists.
Qed.

Lemma infer_index_statistics_multi (levels : list A) :
  infer_index_statistics (MultiIndex levels) =
  (index_statistics ← list_comp _index_stats levels;
   Ok (list_or_none index_statistics), []).
Proof.
  unfold infer_index_statistics.
  by rewrite (list_comp_levels _index_stats [] levels).
Qed.

End InferenceFacts.

Section InferenceProperties.
Context {A : Type} {array_like : ArrayLike A} {parsers : DtypeParsers}.

(** C8.  The type of an array is resolved in two stages.  The alias of its
    storage type is looked up first, and that answer is final unless it is
    the generic [Object] tag; only then is the type resolved again, from
    the content category that pandas infers from the entries with missing
    ones skipped.  In particular an array stored as object whose content
    is inferred as integer resolves to the integer type and not to the
    generic tag. *)
Theorem array_type_two_stage (x : A) :
  (from_str_alias (dtype_name x) <> Object ->
   _get_array_type x = from_str_alias (dtype_name x)) /\
  (from_str_alias (dtype_name x) = Object ->
   _get_array_type x = from_pandas_api_type (infer_dtype x true)) /\
  (from_str_alias (dtype_name x) = Object ->
   from_pandas_api_type (infer_dtype x true) = Int ->
   _get_array_type x = Int /\ _get_array_type x <> Object).
Proof.
  unfold _get_array_type.
  destruct (decide (from_str_alias (dtype_name x) = Object)) as [Heq|Hne].
  - split; [done|]. split; [done|]. intros _ ->. done.
  - done.
Qed.

(** C7.  For a categorical array the extracted statistic is the list of
    declared categories: the categories of the [.cat] accessor when the
    array has one, else the array's own [categories].  The entries of the
    array are not consulted. *)
Theorem categorical_levels_are_declared (x : A) (declared : list string) :
  cat_categories x = Some declared \/
  (cat_categories x = None /\ categories x = Some declared) ->
  _get_array_check_statistics x Category =
    Ok (Some {[ "levels" := Levels declared ]}) /\
  (_get_array_type x = Category ->
   infer_series_statistics x =
     Ok (SeriesStatistics.mk Category (isna_any x)
           (Some {[ "levels" := Levels declared ]}) (array_name x))).
Proof.
  intros Hdecl.
  assert (Hstats : _get_array_check_statistics x Category =
                   Ok (Some {[ "levels" := Levels declared ]})).
  { unfold _get_array_check_statistics.
    replace (bool_decide (Category ∈ NUMERIC_DTYPES)
             || bool_decide (Category = DateTime)) with false
      by (vm_compute; reflexivity).
    destruct (decide (Category = Category)); [|done].
    destruct Hdecl as [-> | [-> ->]]; simpl;
      (rewrite or_none_nonempty; [done | apply insert_non_empty]). }
  split; [exact Hstats|].
  intros Hty. unfold infer_series_statistics. by rewrite Hty, Hstats.
Qed.


(** *** Absence rather than emptiness on the inference side *)

Lemma _get_array_check_statistics_never_empty (x : A) (dtype : PandasDtype) :
  _get_array_check_statistics x dtype <> Ok (Some ∅).
Proof.
  unfold _get_array_check_statistics.
  destruct (if _ : bool then _ else _) as [check_stats|]; simpl; [|done].
  intros [= Hd]. by apply or_none_never_empty in Hd.
Qed.

Lemma infer_index_statistics_never_empty (index : pd_index A) :
  (infer_index_statistics index).1 <> Ok (Some []).
Proof.
  destruct index as [levels|level|type_name]; simpl.
  - destruct (list_comp _ _) as [records|]; simpl; [|done].
    intros [= Hd]. by apply list_or_none_never_empty in Hd.
  - by destruct (_index_stats level).
  - done.
Qed.

Lemma infer_dataframe_statistics_never_empty (df : DataFrame A) t :
  (infer_dataframe_statistics df).1 = Ok t ->
  TableStatistics.columns t <> Some ∅ /\ TableStatistics.index t <> Some [].
Proof.
  unfold infer_dataframe_statistics.
  destruct (infer_column_statistics df) as [cs|]; simpl; [|done].
  pose proof (infer_index_statistics_never_empty (df_index df)) as Hidx.
  destruct (infer_index_statistics (df_index df)) as [[idx|] warned];
    simpl in *; [|done].
  intros [= <-]. simpl. split; [apply or_none_never_empty | congruence].
Qed.

(** A data frame without columns has [columns = None]. *)
Lemma infer_dataframe_statistics_no_columns (index : pd_index A) t :
  (infer_dataframe_statistics {| df_columns := []; df_index := index |}).1 = Ok t ->
  TableStatistics.columns t = None.
Proof.
  unfold infer_dataframe_statistics, infer_column_statistics. simpl.
  destruct (infer_index_statistics index) as [[idx|] warned]; simpl; [|done].
  intros [= <-]. simpl. apply or_none_empty.
Qed.

End InferenceProperties.

(** *** Absence rather than emptiness in the two parsers *)

Lemma parse_check_statistics_never_empty (S : option (gmap string value)) :
  parse_check_statistics S <> Some [].
Proof.
  destruct S as [S|]; [|done]. unfold parse_check_statistics.
  apply list_or_none_never_empty.
Qed.

Lemma parse_checks_never_empty (checks : list Check) :
  parse_checks checks <> Ok (Some ∅).
Proof.
  unfold parse_checks. destruct (collect checks) as [acc|]; simpl; [|done].
  destruct (check_compatible acc); simpl; [|done].
  intros [= Hd]. by apply or_none_never_empty in Hd.
Qed.

(** ** The properties on sample data *)

(** With the sample parsers and the sample reading of [infer_dtype], every
    array stored as object whose entries, missing ones apart, are integers
    (and at least one is) resolves to [Int]. *)
Lemma object_array_of_integers_is_Int (s : Series) :
  series_dtype s = "object" ->
  filter (fun c => is_na c = false) (series_values s) <> [] ->
  forallb is_int (filter (fun c => is_na c = false) (series_values s)) = true ->
  _get_array_type s = Int.
Proof.
  intros Hdtype Hne Hint.
  apply (array_type_two_stage s).
  - simpl. by rewrite Hdtype.
  - simpl. unfold series_infer_dtype.
    destruct (filter _ (series_values s)); [done|]. by rewrite Hint.
Qed.

Lemma array_type_two_stage_witness :
  from_str_alias (dtype_name sample_object_integers) = Object /\
  infer_dtype sample_object_integers true = "integer" /\
  _get_array_type sample_object_integers = Int /\
  _get_array_type sample_int_level = Int64.
Proof.
  split; [reflexivity|]. split; [reflexivity|]. split.
  - apply (array_type_two_stage sample_object_integers); reflexivity.
  - rewrite (proj1 (array_type_two_stage sample_int_level)); [reflexivity|].
    intros Heq. vm_compute in Heq. discriminate.
Defined.

(** Declared categories a, b, c with only a and b present: the levels are
    a, b, c, for a series and for an index alike. *)
Lemma categorical_levels_are_declared_witness :
  infer_series_statistics sample_categorical =
    Ok (SeriesStatistics.mk Category false
          (Some {[ "levels" := Levels ["a"; "b"; "c"] ]}) (Some "grade")) /\
  _get_array_check_statistics sample_categorical_index Category =
    Ok (Some {[ "levels" := Levels ["a"; "b"; "c"] ]}).
Proof.
  split.
  - destruct (categorical_levels_are_declared sample_categorical ["a"; "b"; "c"])
      as [_ Hseries]; [left; reflexivity|].
    rewrite Hseries; reflexivity.
  - destruct (categorical_levels_are_declared sample_categorical_index
                ["a"; "b"; "c"]) as [Hstats _]; [right; split; reflexivity|].
    exact Hstats.
Defined.


Example infer_index_statistics_two_levels :
  infer_index_statistics (MultiIndex [sample_int_level; sample_categorical_index])
  = (Ok (Some [ SeriesStatistics.mk Int64 false
                  (Some {[ "min" := Num 1; "max" := Num 3 ]}) (Some "id");
                SeriesStatistics.mk Category false
                  (Some {[ "levels" := Levels ["a"; "b"; "c"] ]}) (Some "grade") ]),
     []).
Proof. vm_compute. reflexivity. Qed.

(** ** Reading a schema back *)

(** C3.  The absence discipline is not kept by the schema side.  For a
    schema that declares no column, [get_dataframe_schema_statistics]
    answers an empty [columns] mapping and not [None], whereas
    [infer_dataframe_statistics] answers [None] for a data frame without
    columns. *)
Theorem schema_without_columns_has_empty_columns :
  get_dataframe_schema_statistics (DataFrameSchema.mk [] None) =
    Ok (TableStatistics.mk (Some ∅) None) /\
  (infer_dataframe_statistics
     {| df_columns := []; df_index := Index sample_int_level |}).1 =
    Ok (TableStatistics.mk None
          (Some [ SeriesStatistics.mk Int64 false
                    (Some {[ "min" := Num 1; "max" := Num 3 ]}) (Some "id") ])).
Proof. split; vm_compute; reflexivity. Qed.

(** A multi-index schema without components likewise gives an empty list. *)
Lemma schema_with_empty_multi_index :
  get_dataframe_schema_statistics
    (DataFrameSchema.mk [] (Some (MultiIndexSchema []))) =
  Ok (TableStatistics.mk (Some ∅) (Some [])).
Proof. reflexivity. Qed.

(** The [checks] of a schema record are [None] or non-empty, as they come
    from [parse_checks]. *)
Lemma _get_series_base_schema_statistics_checks series_schema_base r :
  _get_series_base_schema_statistics series_schema_base = Ok r ->
  SeriesStatistics.checks r <> Some ∅.
Proof.
  unfold _get_series_base_schema_statistics.
  pose proof (parse_checks_never_empty
                (SeriesSchemaBase.checks series_schema_base)) as Hne.
  destruct (parse_checks _) as [checks|]; simpl; [|done].
  intros [= <-]. simpl. congruence.
Qed.

(** * Further properties of the registry *)

(** ** What the built rules collect *)

(** The rules built from any mapping collect its recognised entries and
    nothing else. *)
Lemma collect_built (S : gmap string value) (checks : list Check) :
  parse_check_statistics (Some S) = Some checks ->
  exists T memo,
    collect checks = Ok (T, memo) /\
    dom T ⊆ vocabulary /\
    T !! "min" = S !! "min" /\
    T !! "max" = S !! "max" /\
    T !! "levels" = S !! "levels".
Proof.
  rewrite parse_check_statistics_explicit.
  destruct (S !! "min") as [a|] eqn:Hmin;
  destruct (S !! "max") as [b|] eqn:Hmax;
  destruct (S !! "levels") as [c|] eqn:Hlev; simpl; intros [= <-].
  all: eexists _, _; split; [run_collect; reflexivity|].
  all: simpl; split; [auto 6 with stats|].
  all: by simplify_map_eq.
Qed.

Lemma check_compatible_ok_inv st memo :
  check_compatible (st, memo) = Ok tt ->
  forall a b, st !! "min" = Some a -> st !! "max" = Some b ->
              py_gt a b = Ok false.
Proof.
  unfold check_compatible. intros Hok a b Ha Hb. rewrite Ha, Hb in Hok.
  destruct (py_gt a b) as [[|]|]; simpl in Hok; [|done|done].
  unfold subscript in Hok.
  destruct (memo !! "min"); simpl in Hok; [|done].
  destruct (memo !! "max"); simpl in Hok; done.
Qed.

Lemma parse_checks_Ok_inv checks r :
  parse_checks checks = Ok r ->
  exists st memo,
    collect checks = Ok (st, memo) /\
    check_compatible (st, memo) = Ok tt /\
    r = or_none st.
Proof.
  intros Hp. destruct (collect checks) as [[st memo]|] eqn:Hc.
  - rewrite (parse_checks_unfold _ _ Hc) in Hp.
    destruct (check_compatible (st, memo)) as [[]|] eqn:Hcc; [|done].
    injection Hp as <-. by exists st, memo.
  - unfold parse_checks in Hp. by rewrite Hc in Hp.
Qed.

Lemma or_none_Some_inv {V} (d d' : gmap string V) :
  or_none d = Some d' -> d' = d /\ d <> ∅.
Proof. unfold or_none. destruct (decide (d = ∅)); [done|]. by intros [= <-]. Qed.

Lemma or_none_None_inv {V} (d : gmap string V) : or_none d = None -> d = ∅.
Proof. unfold or_none. by destruct (decide (d = ∅)). Qed.

(** The loop only ever writes keys of the vocabulary. *)
Lemma collect_dom checks st memo :
  collect checks = Ok (st, memo) -> dom st ⊆ vocabulary.
Proof.
  revert st memo. induction checks as [|d checks IH] using rev_ind;
    intros st memo Hc.
  - injection Hc as <- <-. auto with stats.
  - apply collect_snoc_inv in Hc as ([st0 memo0] & Hc0 & Hd).
    specialize (IH _ _ Hc0).
    destruct Hd as [(s & v & Hd & -> & ->) | [_ [= -> ->]]]; [|done].
    simpl. apply dom_insert_vocabulary; [|done].
    apply vocabulary_elem.
    destruct (contribution_cases d) as [[_ Hk]|[[_ Hk]|[[_ Hk]|[_ Hk]]]];
      rewrite Hk in Hd; [| | |done].
    all: destruct (subscript _ _); simpl in Hd; [|done].
    all: injection Hd as <- _; auto.
Qed.

(** Every key of a mapping returned by [parse_checks] is one of [min],
    [max] and [levels], whatever the rules are. *)
Theorem parse_checks_keys_in_vocabulary (checks : list Check)
    (st : gmap string value) :
  parse_checks checks = Ok (Some st) ->
  dom st ⊆ vocabulary.
Proof.
  intros (st' & memo & Hc & _ & Hr)%parse_checks_Ok_inv.
  symmetry in Hr. apply or_none_Some_inv in Hr as [-> _].
  by apply collect_dom in Hc.
Qed.

Lemma parse_checks_keys_in_vocabulary_witness :
  dom ({[ "min" := Num 1 ]} : gmap string value) ⊆ vocabulary.
Proof.
  apply (parse_checks_keys_in_vocabulary
           [ {| name := "custom"; statistics := {[ "bound" := Num 7 ]} |};
             Checks.greater_than_or_equal_to (Num 1) ]).
  vm_compute. reflexivity.
Defined.

(** A mapping returned by [parse_checks] is a fixed point of the round
    trip: the rules built from it exist and decompose to it again. *)
Theorem decomposed_statistics_round_trip (checks : list Check)
    (st : gmap string value) :
  parse_checks checks = Ok (Some st) ->
  round_trips st.
Proof.
  intros (st' & memo & Hc & Hcc & Hr)%parse_checks_Ok_inv.
  symmetry in Hr. apply or_none_Some_inv in Hr as [-> Hne].
  pose proof (collect_dom _ _ _ Hc) as Hdom.
  pose proof (check_compatible_ok_inv _ _ Hcc) as Hcmp.
  destruct (parse_check_statistics (Some st')) as [built|] eqn:Hb.
  - destruct (collect_built _ _ Hb) as (T & memo' & HcT & HdomT & H1 & H2 & H3).
    assert (T = st') as -> by (by apply stats_ext).
    exists built. split; [done|].
    rewrite (parse_checks_unfold _ _ HcT), check_compatible_ok by done.
    simpl. by rewrite or_none_nonempty.
  - exfalso. apply Hne. rewrite parse_check_statistics_explicit in Hb.
    apply stats_ext; auto with stats; rewrite lookup_empty.
    all: by destruct (st' !! "min"), (st' !! "max"), (st' !! "levels").
Qed.

Lemma decomposed_statistics_round_trip_witness :
  round_trips {[ "min" := Num 3; "max" := Num 9 ]}.
Proof.
  apply (decomposed_statistics_round_trip
           [ Checks.greater_than_or_equal_to (Num 1);
             Checks.less_than_or_equal_to (Num 9);
             {| name := "custom"; statistics := ∅ |};
             Checks.greater_than_or_equal_to (Num 3) ]).
  vm_compute. reflexivity.
Defined.

(** ** Keys outside the vocabulary *)

(** [parse_check_statistics] reads the keys of the forward table only: an
    entry under any other key changes nothing of the rules built. *)
Theorem unknown_statistics_build_no_rule (S : gmap string value)
    (k : string) (v : value) :
  k ∉ vocabulary ->
  parse_check_statistics (Some (<[k := v]> S)) = parse_check_statistics (Some S).
Proof.
  intros Hk. rewrite !parse_check_statistics_explicit.
  rewrite vocabulary_elem in Hk.
  rewrite !lookup_insert_ne by (intros ->; tauto). done.
Qed.

Lemma unknown_statistics_build_no_rule_witness :
  ("median" ∉ vocabulary) /\
  parse_check_statistics (Some {[ "median" := Num 4; "min" := Num 1 ]}) =
  Some [Checks.greater_than_or_equal_to (Num 1)].
Proof.
  assert (Hk : "median" ∉ vocabulary).
  { rewrite vocabulary_elem. intros [?|[?|?]]; discriminate. }
  split; [exact Hk|].
  rewrite (unknown_statistics_build_no_rule _ _ _ Hk). reflexivity.
Defined.

(** On mappings with recognised keys only, the rules built determine the
    mapping: two such mappings with the same rules are equal. *)
Theorem parse_check_statistics_injective (S T : gmap string value) :
  dom S ⊆ vocabulary ->
  dom T ⊆ vocabulary ->
  parse_check_statistics (Some S) = parse_check_statistics (Some T) ->
  S = T.
Proof.
  intros HS HT Heq.
  destruct (parse_check_statistics (Some S)) as [checks|] eqn:Hb.
  - symmetry in Heq.
    destruct (collect_built _ _ Hb) as (S' & m1 & Hc1 & _ & H1 & H2 & H3).
    destruct (collect_built _ _ Heq) as (T' & m2 & Hc2 & _ & H4 & H5 & H6).
    rewrite Hc1 in Hc2. injection Hc2 as <- _.
    apply stats_ext; [done | done | congruence..].
  - symmetry in Heq. rewrite parse_check_statistics_explicit in Hb, Heq.
    apply stats_ext; try done.
    all: destruct (S !! "min"), (S !! "max"), (S !! "levels"); try done.
    all: by destruct (T !! "min"), (T !! "max"), (T !! "levels").
Qed.

Lemma parse_check_statistics_injective_witness :
  parse_check_statistics (Some {[ "min" := Num 1 ]}) <>
  parse_check_statistics (Some {[ "min" := Num 2 ]}).
Proof.
  intros Heq.
  assert (Hne : ({[ "min" := Num 1 ]} : gmap string value) <> {[ "min" := Num 2 ]}).
  { intros Hm. apply (f_equal (fun m => m !! "min")) in Hm.
    rewrite !lookup_singleton_eq in Hm. discriminate. }
  apply Hne.
  apply parse_check_statistics_injective; [by auto with stats..|exact Heq].
Defined.

(** ** When the result is [None] *)

Lemma contribution_None_unrecognized check :
  contribution check = Ok None -> recognized check = false.
Proof.
  intros Hc.
  destruct (contribution_cases check) as [[_ Hk]|[[_ Hk]|[[_ Hk]|[Hr _]]]];
    [| | |done].
  all: rewrite Hk in Hc; by destruct (subscript _ _).
Qed.

Lemma collect_empty checks memo :
  collect checks = Ok (∅, memo) ->
  Forall (fun c => recognized c = false) checks.
Proof.
  revert memo. induction checks as [|d checks IH] using rev_ind; intros memo Hc.
  - constructor.
  - apply collect_snoc_inv in Hc as ([st0 memo0] & Hc0 & Hd).
    destruct Hd as [(s & v & _ & Hst & _) | [Hd [= <- <-]]].
    + symmetry in Hst. by apply insert_non_empty in Hst.
    + apply Forall_app. split; [by eapply IH|].
      apply Forall_singleton. by apply contribution_None_unrecognized.
Qed.

(** [parse_checks] answers [None] exactly when no rule of the input is of a
    kind of the reverse table. *)
Theorem parse_checks_None_iff (checks : list Check) :
  parse_checks checks = Ok None <->
  Forall (fun c => recognized c = false) checks.
Proof.
  split.
  - intros (st & memo & Hc & _ & Hr)%parse_checks_Ok_inv.
    symmetry in Hr. apply or_none_None_inv in Hr as ->.
    by eapply collect_empty.
  - intros Hall. rewrite parse_checks_filter_recognized.
    rewrite filter_unrecognized by done. apply parse_checks_nil.
Qed.

(** ** A rule followed by another of the same statistic *)

Lemma statistic_name_unrecognized check :
  recognized check = false -> statistic_name check = None.
Proof.
  unfold recognized, statistic_name.
  by destruct (dict_get CHECKS_TO_STATISTICS (name check)).
Qed.

(** Two loop states that differ at most at [s] give the same outcome once
    a rule of statistic [s] is still to come. *)
Lemma for_each_shadowed post s (acc acc' : collected) :
  (forall v, <[s := v]> acc.1 = <[s := v]> acc'.1) ->
  (forall c, <[s := c]> acc.2 = <[s := c]> acc'.2) ->
  (exists d, d ∈ post /\ statistic_name d = Some s) ->
  for_each collect_check post acc = for_each collect_check post acc'.
Proof.
  revert acc acc'. induction post as [|d0 post IH];
    intros acc acc' Hst Hmemo (d & Hin & Hd).
  { by apply elem_of_nil in Hin. }
  simpl. rewrite !collect_check_contribution.
  destruct (contribution d0) as [[[s' v']|]|e] eqn:Hd0; simpl; [| |done].
  - destruct (decide (s' = s)) as [->|Hne].
    + by rewrite Hst, Hmemo.
    + apply IH; simpl.
      * intros v. rewrite !(insert_insert_ne _ s s') by done. by rewrite Hst.
      * intros c. rewrite !(insert_insert_ne _ s s') by done. by rewrite Hmemo.
      * exists d. split; [|done].
        apply elem_of_cons in Hin as [->|]; [|done].
        apply statistic_name_contribution in Hd0. congruence.
  - apply IH; [done..|]. exists d. split; [|done].
    apply elem_of_cons in Hin as [->|]; [|done].
    apply contribution_None_unrecognized, statistic_name_unrecognized in Hd0.
    congruence.
Qed.

(** A rule that does not raise and is followed, anywhere later, by a rule
    of the same statistic has no effect on [parse_checks]: leaving it out
    gives the same value or the same error. *)
Theorem shadowed_rule_has_no_effect (pre : list Check) (c : Check)
    (post : list Check) (s : string) (v : value) :
  contribution c = Ok (Some (s, v)) ->
  (exists d, d ∈ post /\ statistic_name d = Some s) ->
  parse_checks (pre ++ c :: post) = parse_checks (pre ++ post).
Proof.
  intros Hc Hlater. unfold parse_checks, collect. rewrite !for_each_app.
  destruct (for_each collect_check pre (∅, ∅)) as [acc|]; simpl; [|done].
  rewrite (collect_check_built _ _ _ _ Hc). simpl.
  rewrite (for_each_shadowed post s _ acc); [done| | |done]; simpl.
  - intros v'. apply insert_insert_eq.
  - intros c'. apply insert_insert_eq.
Qed.

Lemma shadowed_rule_has_no_effect_witness :
  parse_checks [ Checks.less_than_or_equal_to (Num 2);
                 Checks.greater_than_or_equal_to (Num 5);
                 Checks.less_than_or_equal_to (Num 9) ] =
  Ok (Some {[ "min" := Num 5; "max" := Num 9 ]}).
Proof.
  etransitivity;
    [apply (shadowed_rule_has_no_effect []
              (Checks.less_than_or_equal_to (Num 2))
              [ Checks.greater_than_or_equal_to (Num 5);
                Checks.less_than_or_equal_to (Num 9) ] "max" (Num 2))
    | vm_compute; reflexivity].
  - reflexivity.
  - exists (Checks.less_than_or_equal_to (Num 9)). split; [|reflexivity].
    apply elem_of_cons. right. apply elem_of_cons. by left.
Defined.

(** * Further properties of the schema side *)

Lemma for_each_raise_iff {A S} (body : S -> A -> result S)
    (bad : A -> Prop) (xs : list A) (acc : S) :
  (forall acc x, raises (body acc x) <-> bad x) ->
  raises (for_each body xs acc) <-> Exists bad xs.
Proof.
  intros Hbody. revert acc. induction xs as [|x xs IH]; intros acc; simpl.
  - split; [done | by inversion 1].
  - rewrite Exists_cons. specialize (Hbody acc x).
    destruct (body acc x) as [acc'|e]; simpl in *.
    + rewrite IH. tauto.
    + tauto.
Qed.

Lemma list_comp_raise_iff {A B} (f : A -> result B) (xs : list A) :
  raises (list_comp f xs) <-> Exists (fun x => raises (f x)) xs.
Proof.
  induction xs as [|x xs IH]; simpl.
  - split; [done | by inversion 1].
  - rewrite Exists_cons. destruct (f x) as [y|e]; simpl; [|tauto].
    destruct (list_comp f xs) as [ys|e]; simpl in *; tauto.
Qed.

Lemma schema_column_record_raises acc (item : string * SeriesSchemaBase.t) :
  raises (schema_column_record acc item) <->
  raises (parse_checks (SeriesSchemaBase.checks item.2)).
Proof.
  destruct item as [col_name column]. unfold schema_column_record. simpl.
  by destruct (parse_checks _).
Qed.

Lemma _get_series_base_schema_statistics_raises component :
  raises (_get_series_base_schema_statistics component) <->
  raises (parse_checks (SeriesSchemaBase.checks component)).
Proof.
  unfold _get_series_base_schema_statistics. by destruct (parse_checks _).
Qed.

(** [get_dataframe_schema_statistics] raises exactly when [parse_checks]
    raises on the checks of one of the columns or of one of the index
    components: one column with incompatible bounds fails the whole
    schema. *)
Theorem get_dataframe_schema_statistics_raises_iff
    (dataframe_schema : DataFrameSchema.t) :
  raises (get_dataframe_schema_statistics dataframe_schema) <->
  Exists (fun item => raises (parse_checks (SeriesSchemaBase.checks item.2)))
         (DataFrameSchema.columns dataframe_schema) \/
  Exists (fun component =>
            raises (parse_checks (SeriesSchemaBase.checks component)))
         (schema_index_components (DataFrameSchema.index dataframe_schema)).
Proof.
  unfold get_dataframe_schema_statistics.
  pose proof (for_each_raise_iff schema_column_record
    (fun item => raises (parse_checks (SeriesSchemaBase.checks item.2)))
    (DataFrameSchema.columns dataframe_schema) ∅
    schema_column_record_raises) as Hcols.
  destruct (for_each schema_column_record _ ∅) as [columns|e]; simpl in *;
    [|tauto].
  assert (Hnocol : ~ Exists
    (fun item => raises (parse_checks (SeriesSchemaBase.checks item.2)))
    (DataFrameSchema.columns dataframe_schema)) by tauto.
  destruct (DataFrameSchema.index dataframe_schema) as [index|]; cycle 1.
  { simpl. split; [done|]. intros [Hc|Hi]; [tauto|]. by inversion Hi. }
  unfold get_index_schema_statistics.
  set (components := match index with
                     | MultiIndexSchema indexes => indexes
                     | SingleIndexSchema component => [component]
                     end).
  assert (Hidx : schema_index_components (Some index) = components)
    by (by destruct index).
  rewrite Hidx.
  pose proof (list_comp_raise_iff _get_series_base_schema_statistics
                components) as Hcomp.
  destruct (list_comp _ components) as [stats|e]; simpl in *.
  + split; [done|]. intros [Hc|Hi]; [tauto|]. apply Hcomp.
    eapply Exists_impl; [exact Hi|].
    intros c. by rewrite _get_series_base_schema_statistics_raises.
  + split; [|done]. intros _. right.
    eapply Exists_impl; [by apply Hcomp|].
    intros c. by rewrite _get_series_base_schema_statistics_raises.
Qed.

Example get_dataframe_schema_statistics_raises_example :
  get_dataframe_schema_statistics
    (DataFrameSchema.mk
       [ ("a", SeriesSchemaBase.mk Int64 false
                 [Checks.greater_than_or_equal_to (Num 0)] (Some "a"));
         ("b", SeriesSchemaBase.mk Int64 false
                 [Checks.greater_than_or_equal_to (Num 10);
                  Checks.less_than_or_equal_to (Num 5)] (Some "b")) ]
       None) =
  Raise (ValueError (Checks.greater_than_or_equal_to (Num 10))
                    (Checks.less_than_or_equal_to (Num 5)) (Num 10) (Num 5)).
Proof. vm_compute. reflexivity. Qed.

Lemma schema_columns_other cols acc m name :
  for_each schema_column_record cols acc = Ok m ->
  name ∉ cols.*1 -> m !! name = acc !! name.
Proof.
  revert acc. induction cols as [|[n0 c0] cols IH]; intros acc; simpl.
  - by intros [= <-].
  - destruct (parse_checks (SeriesSchemaBase.checks c0)) as [checks|]; [|done].
    simpl. intros Hm Hname. apply not_elem_of_cons in Hname as [Hne Hname].
    rewrite (IH _ Hm Hname). by rewrite lookup_insert_ne.
Qed.

Lemma schema_columns_lookup cols acc m name col :
  for_each schema_column_record cols acc = Ok m ->
  NoDup cols.*1 -> (name, col) ∈ cols ->
  exists checks,
    parse_checks (SeriesSchemaBase.checks col) = Ok checks /\
    m !! name = Some (schema_column_statistics col checks).
Proof.
  revert acc. induction cols as [|[n0 c0] cols IH]; intros acc; simpl.
  - intros _ _ Hin. by apply elem_of_nil in Hin.
  - destruct (parse_checks (SeriesSchemaBase.checks c0)) as [checks|] eqn:Hp;
      [|done].
    simpl. intros Hm Hnd Hin. apply NoDup_cons in Hnd as [Hn0 Hnd].
    apply elem_of_cons in Hin as [[= -> ->]|Hin].
    + exists checks. split; [done|].
      rewrite (schema_columns_other _ _ _ _ Hm Hn0).
      by rewrite lookup_insert_eq.
    + by apply (IH _ Hm Hnd Hin).
Qed.

Lemma schema_columns_dom cols m :
  for_each schema_column_record cols ∅ = Ok m ->
  NoDup cols.*1 ->
  dom m = list_to_set cols.*1.
Proof.
  intros Hcols Hnd. apply set_eq. intros name.
  rewrite elem_of_dom, elem_of_list_to_set. split.
  - intros Hsome. destruct (decide (name ∈ cols.*1)); [done|].
    rewrite (schema_columns_other _ _ _ _ Hcols) in Hsome by done.
    rewrite lookup_empty in Hsome. by destruct Hsome.
  - intros ([n col] & -> & Hin)%list_elem_of_fmap. simpl.
    destruct (schema_columns_lookup _ _ _ _ _ Hcols Hnd Hin)
      as (checks & _ & ->). done.
Qed.

(** What a schema decomposes to.  When the column names are distinct, as
    the keys of [dataframe_schema.columns] are, and no check list raises,
    the [columns] mapping has exactly the names of the schema as keys, each
    with the declared type and nullability of its column and the parsed
    checks of its rules; the [index] is [None] exactly when the schema has
    no index, else the records of its components in order. *)
Theorem get_dataframe_schema_statistics_shape
    (dataframe_schema : DataFrameSchema.t) (t : TableStatistics.t) :
  NoDup (DataFrameSchema.columns dataframe_schema).*1 ->
  get_dataframe_schema_statistics dataframe_schema = Ok t ->
  (exists cols,
     TableStatistics.columns t = Some cols /\
     dom cols = list_to_set (DataFrameSchema.columns dataframe_schema).*1 /\
     forall name col,
       (name, col) ∈ DataFrameSchema.columns dataframe_schema ->
       exists checks,
         parse_checks (SeriesSchemaBase.checks col) = Ok checks /\
         cols !! name = Some (schema_column_statistics col checks)) /\
  (DataFrameSchema.index dataframe_schema = None ->
   TableStatistics.index t = None) /\
  (forall index,
     DataFrameSchema.index dataframe_schema = Some index ->
     exists records,
       TableStatistics.index t = Some records /\
       Forall2 (fun component r =>
                  _get_series_base_schema_statistics component = Ok r)
               (schema_index_components (Some index)) records).
Proof.
  intros Hnd. unfold get_dataframe_schema_statistics.
  destruct (for_each schema_column_record _ ∅) as [cols|] eqn:Hcols; [|done].
  simpl.
  destruct (DataFrameSchema.index dataframe_schema) as [index|] eqn:Hidx; simpl.
  - destruct (get_index_schema_statistics index) as [records|] eqn:Hrec;
      [|done].
    simpl. intros [= <-]. simpl. split; [|split; [done|]].
    + exists cols. split; [done|]. split.
      * by apply schema_columns_dom.
      * intros name col Hin. by eapply schema_columns_lookup.
    + intros index' [= <-]. exists records. split; [done|].
      apply list_comp_Forall2. by destruct index.
  - intros [= <-]. simpl. split; [|split; [done|done]].
    exists cols. split; [done|]. split.
    + by apply schema_columns_dom.
    + intros name col Hin. by eapply schema_columns_lookup.
Qed.

Lemma get_dataframe_schema_statistics_shape_witness :
  exists t cols,
    get_dataframe_schema_statistics sample_schema = Ok t /\
    TableStatistics.columns t = Some cols /\
    dom cols = list_to_set ["a"; "b"] /\
    cols !! "b" = Some (ColumnStatistics.mk Category true
                          (Some {[ "levels" := Levels ["x"; "y"] ]})) /\
    TableStatistics.index t = Some [SeriesStatistics.mk Int64 false None None].
Proof.
  destruct (get_dataframe_schema_statistics sample_schema)
    as [t|e] eqn:Hrun; [|vm_compute in Hrun; discriminate].
  assert (Hnd : NoDup (DataFrameSchema.columns sample_schema).*1).
  { simpl. apply NoDup_cons. split; [|apply NoDup_singleton].
    intros Hin%list_elem_of_singleton. discriminate. }
  destruct (get_dataframe_schema_statistics_shape sample_schema t Hnd Hrun)
    as [(cols & Hcols & Hdom & Hlook) _].
  exists t, cols. split; [reflexivity|]. split; [exact Hcols|].
  split; [exact Hdom|]. split.
  - destruct (Hlook "b" (SeriesSchemaBase.mk Category true
                           [Checks.isin (Levels ["x"; "y"])] (Some "b")))
      as (checks & Hp & ->).
    { simpl. apply elem_of_cons. right. apply elem_of_cons. by left. }
    vm_compute in Hp. injection Hp as <-. vm_compute. reflexivity.
  - vm_compute in Hrun. injection Hrun as <-. reflexivity.
Defined.

(** * Further properties of the inference side *)

Lemma numeric_or_datetime (dtype : PandasDtype) :
  bool_decide (dtype ∈ NUMERIC_DTYPES) || bool_decide (dtype = DateTime) =
  bool_decide (dtype ∈ NUMERIC_DTYPES).
Proof. by destruct dtype. Qed.

Lemma Category_not_numeric : Category ∉ NUMERIC_DTYPES.
Proof. apply (bool_decide_unpack _). by vm_compute. Qed.

Section MoreInferenceProperties.
Context {A : Type} {array_like : ArrayLike A} {parsers : DtypeParsers}.

Lemma _get_array_check_statistics_numeric (x : A) (dtype : PandasDtype) :
  dtype ∈ NUMERIC_DTYPES ->
  _get_array_check_statistics x dtype =
  Ok (Some {[ "min" := reduce_min x; "max" := reduce_max x ]}).
Proof.
  intros Hnum. unfold _get_array_check_statistics.
  rewrite numeric_or_datetime, (bool_decide_eq_true_2 _ Hnum). simpl.
  rewrite or_none_nonempty; [done | apply insert_non_empty].
Qed.

Lemma _get_array_check_statistics_other (x : A) (dtype : PandasDtype) :
  dtype ∉ NUMERIC_DTYPES -> dtype <> Category ->
  _get_array_check_statistics x dtype = Ok None.
Proof.
  intros Hnum Hcat. unfold _get_array_check_statistics.
  rewrite numeric_or_datetime, (bool_decide_eq_false_2 _ Hnum). simpl.
  destruct (decide (dtype = Category)); [done|]. simpl.
  by rewrite or_none_empty.
Qed.

Lemma _get_array_check_statistics_category (x : A) r :
  _get_array_check_statistics x Category = Ok r ->
  exists declared, r = Some {[ "levels" := Levels declared ]}.
Proof.
  unfold _get_array_check_statistics.
  rewrite numeric_or_datetime, (bool_decide_eq_false_2 _ Category_not_numeric).
  simpl. destruct (decide (Category = Category)); [|done].
  destruct (cat_categories x) as [c|]; simpl.
  - rewrite or_none_nonempty by apply insert_non_empty.
    intros [= <-]. by exists c.
  - destruct (categories x) as [c|]; simpl; [|done].
    rewrite or_none_nonempty by apply insert_non_empty.
    intros [= <-]. by exists c.
Qed.

(** The statistics extracted from an array go by its type alone.  A type of
    [NUMERIC_DTYPES] gives exactly the two bounds [x.min()] and [x.max()];
    the separate [DateTime] test adds nothing, as [DateTime] is in the set.
    [Category] gives [levels] only.  Any other type gives [None].  So a
    result never holds one bound without the other, nor bounds together
    with levels. *)
Theorem array_check_statistics_by_dtype (x : A) (dtype : PandasDtype) :
  (dtype ∈ NUMERIC_DTYPES ->
   _get_array_check_statistics x dtype =
   Ok (Some {[ "min" := reduce_min x; "max" := reduce_max x ]})) /\
  (dtype ∉ NUMERIC_DTYPES -> dtype <> Category ->
   _get_array_check_statistics x dtype = Ok None) /\
  (forall st,
     _get_array_check_statistics x dtype = Ok (Some st) ->
     (dtype ∈ NUMERIC_DTYPES /\
      st !! "min" = Some (reduce_min x) /\ st !! "max" = Some (reduce_max x) /\
      st !! "levels" = None /\ dom st = {[ "min"; "max" ]}) \/
     (dtype = Category /\
      st !! "min" = None /\ st !! "max" = None /\
      (exists declared, st !! "levels" = Some (Levels declared)) /\
      dom st = {[ "levels" ]})).
Proof.
  split; [apply _get_array_check_statistics_numeric|].
  split; [apply _get_array_check_statistics_other|].
  intros st Hst.
  destruct (decide (dtype ∈ NUMERIC_DTYPES)) as [Hnum|Hnum].
  - left. rewrite _get_array_check_statistics_numeric in Hst by done.
    injection Hst as <-. split; [done|].
    rewrite dom_insert_L, dom_singleton_L. by simplify_map_eq.
  - right. destruct (decide (dtype = Category)) as [->|Hcat].
    + apply _get_array_check_statistics_category in Hst as [declared [= ->]].
      split; [done|]. rewrite dom_singleton_L.
      simplify_map_eq. eauto 6.
    + by rewrite _get_array_check_statistics_other in Hst.
Qed.

(** None of the functions that turn an empty result into [None] ever
    returns an empty mapping or an empty list: the extracted statistics,
    the index statistics, and both fields of the statistics of a data
    frame. *)
Theorem inference_never_returns_empty :
  (forall (x : A) dtype,
     _get_array_check_statistics x dtype <> Ok (Some ∅)) /\
  (forall (series : A) s,
     infer_series_statistics series = Ok s ->
     SeriesStatistics.checks s <> Some ∅) /\
  (forall index : pd_index A,
     (infer_index_statistics index).1 <> Ok (Some [])) /\
  (forall (df : DataFrame A) t,
     (infer_dataframe_statistics df).1 = Ok t ->
     TableStatistics.columns t <> Some ∅ /\
     TableStatistics.index t <> Some []).
Proof.
  split; [apply _get_array_check_statistics_never_empty|].
  split; [|split].
  - intros series s. unfold infer_series_statistics.
    pose proof (_get_array_check_statistics_never_empty series
                  (_get_array_type series)) as Hne.
    destruct (_get_array_check_statistics _ _) as [checks|]; simpl; [|done].
    intros [= <-]. simpl. congruence.
  - apply infer_index_statistics_never_empty.
  - apply infer_dataframe_statistics_never_empty.
Qed.

End MoreInferenceProperties.

Lemma array_check_statistics_by_dtype_witness :
  _get_array_check_statistics sample_int_level Int64 =
    Ok (Some {[ "min" := Num 1; "max" := Num 3 ]}) /\
  _get_array_check_statistics sample_object_integers Object = Ok None.
Proof.
  destruct (array_check_statistics_by_dtype sample_int_level Int64)
    as (Hnum & _ & _).
  destruct (array_check_statistics_by_dtype sample_object_integers Object)
    as (_ & Hother & _).
  split.
  - rewrite Hnum; [reflexivity|].
    apply (bool_decide_unpack _). by vm_compute.
  - apply Hother; [|discriminate].
    apply (bool_decide_unpack _). by vm_compute.
Defined.

Lemma inference_never_returns_empty_witness :
  SeriesStatistics.checks
    (SeriesStatistics.mk Object false None None) <> Some ∅ /\
  infer_series_statistics
    {| series_dtype := "object"; series_name := None;
       series_values := [StrCell "u"; IntCell 1];
       series_categories := None; series_has_cat := true |} =
  Ok (SeriesStatistics.mk Object false None None).
Proof.
  assert (Hrun : infer_series_statistics
    {| series_dtype := "object"; series_name := None;
       series_values := [StrCell "u"; IntCell 1];
       series_categories := None; series_has_cat := true |} =
    Ok (SeriesStatistics.mk Object false None None)) by reflexivity.
  split; [|exact Hrun].
  destruct (@inference_never_returns_empty Series _ _) as (_ & Hseries & _).
  exact (Hseries _ _ Hrun).
Defined.

(** ** From data to a schema and back *)

(** The rules built from statistics that are [None], or non-empty with
    recognised keys and compatible bounds, decompose to these statistics;
    building no rule counts as the empty list of rules. *)
Lemma parse_checks_of_built (r : option (gmap string value))
    (checks : list Check) :
  (forall st, r = Some st ->
     st <> ∅ /\ dom st ⊆ vocabulary /\
     forall a b, st !! "min" = Some a -> st !! "max" = Some b ->
                 py_gt a b = Ok false) ->
  parse_check_statistics r = list_or_none checks ->
  parse_checks checks = Ok r.
Proof.
  intros Hr Hbuilt. destruct r as [st|].
  - destruct (Hr st eq_refl) as (Hne & Hdom & Hcmp).
    destruct checks as [|c checks]; unfold list_or_none in Hbuilt.
    + exfalso. apply Hne. rewrite parse_check_statistics_explicit in Hbuilt.
      apply stats_ext; auto with stats; rewrite lookup_empty.
      all: by destruct (st !! "min"), (st !! "max"), (st !! "levels").
    + destruct (collect_built _ _ Hbuilt) as (T & memo & Hc & HdomT & H1 & H2 & H3).
      assert (T = st) as -> by (by apply stats_ext).
      rewrite (parse_checks_unfold _ _ Hc), check_compatible_ok by done.
      simpl. by rewrite or_none_nonempty.
  - destruct checks; [apply parse_checks_nil | done].
Qed.

Section Pipeline.
Context {A : Type} {array_like : ArrayLike A} {parsers : DtypeParsers}.

(** The statistics inferred from a series survive the trip through a
    schema.  Take the record inferred from [x], and any series schema that
    declares the record's type, nullability and name and whose checks are
    the rules built from the record's checks (none when these are [None]).
    Provided [x.min() > x.max()] is false for a numeric [x], the statistics
    read back from that schema are the inferred record. *)
Theorem inferred_statistics_survive_schema (x : A) (s : SeriesStatistics.t)
    (series_schema : SeriesSchemaBase.t) :
  infer_series_statistics x = Ok s ->
  (_get_array_type x ∈ NUMERIC_DTYPES ->
   py_gt (reduce_min x) (reduce_max x) = Ok false) ->
  SeriesSchemaBase._pandas_dtype series_schema = SeriesStatistics.pandas_dtype s ->
  SeriesSchemaBase.nullable series_schema = SeriesStatistics.nullable s ->
  SeriesSchemaBase.name series_schema = SeriesStatistics.name s ->
  parse_check_statistics (SeriesStatistics.checks s) =
    list_or_none (SeriesSchemaBase.checks series_schema) ->
  get_series_schema_statistics series_schema = Ok s.
Proof.
  unfold infer_series_statistics.
  destruct (_get_array_check_statistics x (_get_array_type x)) as [r|] eqn:Hr;
    [|done].
  simpl. intros [= <-] Hcmp Hdtype Hnullable Hname Hbuilt. simpl in *.
  unfold get_series_schema_statistics, _get_series_base_schema_statistics.
  rewrite (parse_checks_of_built r _); [|  | exact Hbuilt].
  { simpl. by rewrite Hdtype, Hnullable, Hname. }
  intros st ->.
  destruct (decide (_get_array_type x ∈ NUMERIC_DTYPES)) as [Hnum|Hnum].
  - rewrite _get_array_check_statistics_numeric in Hr by done.
    injection Hr as <-. split; [apply insert_non_empty|].
    split; [auto with stats|].
    intros a b Ha Hb. simplify_map_eq. by apply Hcmp.
  - destruct (decide (_get_array_type x = Category)) as [Hcat|Hcat].
    + rewrite Hcat in Hr.
      apply _get_array_check_statistics_category in Hr as [declared [= ->]].
      split; [apply insert_non_empty|]. split; [auto with stats|].
      intros a b Ha. by simplify_map_eq.
    + by rewrite _get_array_check_statistics_other in Hr.
Qed.

End Pipeline.

Lemma inferred_statistics_survive_schema_witness :
  infer_series_statistics sample_int_level =
    Ok (SeriesStatistics.mk Int64 false
          (Some {[ "min" := Num 1; "max" := Num 3 ]}) (Some "id")) /\
  get_series_schema_statistics
    (SeriesSchemaBase.mk Int64 false
       [Checks.greater_than_or_equal_to (Num 1);
        Checks.less_than_or_equal_to (Num 3)] (Some "id")) =
    Ok (SeriesStatistics.mk Int64 false
          (Some {[ "min" := Num 1; "max" := Num 3 ]}) (Some "id")).
Proof.
  assert (Hrun : infer_series_statistics sample_int_level =
    Ok (SeriesStatistics.mk Int64 false
          (Some {[ "min" := Num 1; "max" := Num 3 ]}) (Some "id")))
    by (vm_compute; reflexivity).
  split; [exact Hrun|].
  apply (inferred_statistics_survive_schema sample_int_level _ _ Hrun).
  - intros _. reflexivity.
  - reflexivity.
  - reflexivity.
  - reflexivity.
  - vm_compute. reflexivity.
Defined.

(** ** The statistics of a data frame *)

Lemma dict_get_NoDup {V} (d : list (string * V)) k v :
  NoDup d.*1 -> (k, v) ∈ d -> dict_get d k = Some v.
Proof.
  induction d as [|[k0 v0] d IH]; simpl; intros Hnd Hin.
  - by apply elem_of_nil in Hin.
  - apply NoDup_cons in Hnd as [Hk0 Hnd].
    apply elem_of_cons in Hin as [[= -> ->]|Hin].
    + by rewrite String.eqb_refl.
    + destruct (String.eqb_spec k k0) as [->|_]; [|by apply IH].
      exfalso. apply Hk0. apply list_elem_of_fmap. by exists (k0, v).
Qed.

Section DataFrameProperties.
Context {A : Type} {array_like : ArrayLike A} {parsers : DtypeParsers}.

Lemma column_record_found (df : DataFrame A) acc col x :
  dict_get (df_columns df) col = Some x ->
  column_record df acc (col, _get_array_type x) =
  (checks ← _get_array_check_statistics x (_get_array_type x);
   Ok (<[col := ColumnStatistics.mk (_get_array_type x) (isna_any x) checks]> acc)).
Proof. intros Hget. unfold column_record. by rewrite Hget. Qed.

Lemma infer_columns_other (df : DataFrame A) items acc m name :
  (forall col x, (col, x) ∈ items -> dict_get (df_columns df) col = Some x) ->
  for_each (column_record df)
           (map (fun '(col, x) => (col, _get_array_type x)) items) acc = Ok m ->
  name ∉ items.*1 -> m !! name = acc !! name.
Proof.
  revert acc. induction items as [|[c0 x0] items IH]; intros acc Hget; cbn [for_each map].
  - by intros [= <-].
  - rewrite (column_record_found df acc c0 x0)
      by (apply Hget, elem_of_cons; by left).
    destruct (_get_array_check_statistics x0 _) as [checks|]; [|done].
    simpl. intros Hm Hname. apply not_elem_of_cons in Hname as [Hne Hname].
    rewrite (IH _ (fun col x Hin => Hget col x (proj2 (elem_of_cons _ _ _)
                                                  (or_intror Hin))) Hm Hname).
    by rewrite lookup_insert_ne.
Qed.

Lemma infer_columns_lookup (df : DataFrame A) items acc m col x :
  (forall col x, (col, x) ∈ items -> dict_get (df_columns df) col = Some x) ->
  for_each (column_record df)
           (map (fun '(col, x) => (col, _get_array_type x)) items) acc = Ok m ->
  NoDup items.*1 -> (col, x) ∈ items ->
  exists checks,
    _get_array_check_statistics x (_get_array_type x) = Ok checks /\
    m !! col = Some (ColumnStatistics.mk (_get_array_type x) (isna_any x) checks).
Proof.
  revert acc. induction items as [|[c0 x0] items IH]; intros acc Hget; cbn [for_each map].
  - intros _ _ Hin. by apply elem_of_nil in Hin.
  - rewrite (column_record_found df acc c0 x0)
      by (apply Hget, elem_of_cons; by left).
    destruct (_get_array_check_statistics x0 _) as [checks|] eqn:Hx0; [|done].
    simpl. intros Hm Hnd Hin. apply NoDup_cons in Hnd as [Hc0 Hnd].
    assert (Hget' : forall col x, (col, x) ∈ items ->
                                  dict_get (df_columns df) col = Some x).
    { intros ? ? ?. apply Hget, elem_of_cons. by right. }
    apply elem_of_cons in Hin as [[= -> ->]|Hin].
    + exists checks. split; [done|].
      rewrite (infer_columns_other df items _ m c0 Hget' Hm Hc0).
      by rewrite lookup_insert_eq.
    + by apply (IH _ Hget' Hm Hnd Hin).
Qed.

Lemma infer_columns_total (df : DataFrame A) items acc :
  (forall col x, (col, x) ∈ items -> dict_get (df_columns df) col = Some x) ->
  Forall (fun item => exposes_categories item.2 = true) items ->
  exists m,
    for_each (column_record df)
             (map (fun '(col, x) => (col, _get_array_type x)) items) acc = Ok m.
Proof.
  revert acc. induction items as [|[c0 x0] items IH]; intros acc Hget Hall; cbn [for_each map].
  - by eexists.
  - apply Forall_cons in Hall as [Hx0 Hall].
    rewrite (column_record_found df acc c0 x0)
      by (apply Hget, elem_of_cons; by left).
    destruct (_get_array_check_statistics_total x0 Hx0) as [checks ->].
    simpl. apply IH; [|done].
    intros ? ? ?. apply Hget, elem_of_cons. by right.
Qed.

(** In the statistics of a data frame with distinct column labels, the
    record of each column is the record [infer_series_statistics] gives for
    that column, without the name; and [columns] is [None] only for a data
    frame without columns. *)
Theorem dataframe_columns_are_series_statistics (df : DataFrame A)
    (t : TableStatistics.t) :
  NoDup (df_columns df).*1 ->
  (infer_dataframe_statistics df).1 = Ok t ->
  (forall col x,
     (col, x) ∈ df_columns df ->
     exists s cols,
       infer_series_statistics x = Ok s /\
       TableStatistics.columns t = Some cols /\
       cols !! col = Some (without_name s)) /\
  (TableStatistics.columns t = None <-> df_columns df = []).
Proof.
  intros Hnd. unfold infer_dataframe_statistics, infer_column_statistics.
  destruct (for_each _ _ ∅) as [m|] eqn:Hm; [|done].
  destruct (infer_index_statistics (df_index df)) as [[idx|] warned];
    simpl; [|done].
  intros [= <-]. simpl.
  assert (Hget : forall col x, (col, x) ∈ df_columns df ->
                               dict_get (df_columns df) col = Some x)
    by (intros; by apply dict_get_NoDup).
  split.
  - intros col x Hin.
    destruct (infer_columns_lookup df _ _ _ _ _ Hget Hm Hnd Hin)
      as (checks & Hchecks & Hlook).
    eexists _, m. unfold infer_series_statistics. rewrite Hchecks. simpl.
    split; [done|]. split; [|done].
    apply or_none_nonempty. by apply lookup_Some_nonempty in Hlook.
  - split.
    + intros Hnone%or_none_None_inv.
      destruct (decide (df_columns df = [])) as [|Hne]; [done|exfalso].
      assert (Hex : exists col x, (col, x) ∈ df_columns df).
      { clear -Hne. destruct (df_columns df) as [|[col x] items]; [done|].
        exists col, x. apply elem_of_cons. by left. }
      destruct Hex as (col & x & Hin).
      destruct (infer_columns_lookup df _ _ _ col x Hget Hm Hnd Hin)
        as (checks & _ & Hlook).
      rewrite Hnone, lookup_empty in Hlook. done.
    + intros Hcols. rewrite Hcols in Hm. simpl in Hm. injection Hm as <-.
      apply or_none_empty.
Qed.

(** With distinct column labels, and every categorical array exposing its
    categories, [infer_dataframe_statistics] returns; it warns exactly when
    the index is no index, and then once. *)
Theorem infer_dataframe_statistics_returns (df : DataFrame A) :
  NoDup (df_columns df).*1 ->
  Forall (fun item => exposes_categories item.2 = true) (df_columns df) ->
  Forall (fun x => exposes_categories x = true) (index_levels (df_index df)) ->
  (exists t, (infer_dataframe_statistics df).1 = Ok t) /\
  (infer_dataframe_statistics df).2 =
    match df_index df with
    | NotAnIndex type_name =>
        [UserWarning ("index type " +:+ type_name +:+
                      " not recognized, skipping index inference")]
    | _ => []
    end.
Proof.
  intros Hnd Hcols Hlevels.
  unfold infer_dataframe_statistics, infer_column_statistics.
  destruct (infer_columns_total df (df_columns df) ∅) as [m ->]; [|done|].
  { intros. by apply dict_get_NoDup. }
  destruct (df_index df) as [levels|level|type_name]; simpl in Hlevels.
  - rewrite infer_index_statistics_multi.
    destruct (list_comp_total _index_stats levels) as [records ->].
    { eapply Forall_impl; [exact Hlevels|]. intros x. apply _index_stats_total. }
    simpl. split; [by eexists | done].
  - rewrite Forall_singleton in Hlevels.
    destruct (_index_stats_total level Hlevels) as [r Hr].
    unfold infer_index_statistics. rewrite Hr. simpl.
    split; [by eexists | done].
  - simpl. split; [by eexists | done].
Qed.

End DataFrameProperties.

Lemma sample_frame_labels : NoDup (df_columns sample_frame).*1.
Proof.
  simpl. apply NoDup_cons. split; [|apply NoDup_singleton].
  intros Hin%list_elem_of_singleton. discriminate.
Qed.

Lemma dataframe_columns_are_series_statistics_witness :
  exists t s cols,
    (infer_dataframe_statistics sample_frame).1 = Ok t /\
    infer_series_statistics sample_categorical = Ok s /\
    TableStatistics.columns t = Some cols /\
    cols !! "grade" = Some (without_name s).
Proof.
  destruct (infer_dataframe_statistics sample_frame).1 as [t|e] eqn:Hrun;
    [|vm_compute in Hrun; discriminate].
  destruct (dataframe_columns_are_series_statistics sample_frame t
              sample_frame_labels Hrun) as [Hcols _].
  destruct (Hcols "grade" sample_categorical) as (s & cols & Hs & Ht & Hl).
  { simpl. apply elem_of_cons. right. apply elem_of_cons. by left. }
  exists t, s, cols. done.
Defined.

Lemma infer_dataframe_statistics_returns_witness :
  (exists t, (infer_dataframe_statistics sample_frame).1 = Ok t) /\
  (infer_dataframe_statistics sample_frame).2 = [].
Proof.
  apply (infer_dataframe_statistics_returns sample_frame sample_frame_labels).
  - repeat constructor.
  - repeat constructor.
Defined.

(** ** The only error of the inference side *)

Lemma list_comp_raise {A B} (f : A -> result B) (xs : list A) e :
  list_comp f xs = Raise e -> exists x, x ∈ xs /\ f x = Raise e.
Proof.
  induction xs as [|x xs IH]; simpl; [done|].
  destruct (f x) as [y|e'] eqn:Hx; simpl.
  - destruct (list_comp f xs) as [ys|e'']; simpl; [done|].
    intros [= <-]. destruct (IH eq_refl) as (x' & Hin & Hx').
    exists x'. split; [apply elem_of_cons; by right | done].
  - intros [= <-]. exists x. split; [apply elem_of_cons; by left | done].
Qed.

Section InferenceErrors.
Context {A : Type} {array_like : ArrayLike A} {parsers : DtypeParsers}.

Lemma _get_array_check_statistics_raise (x : A) dtype e :
  _get_array_check_statistics x dtype = Raise e ->
  e = AttributeError "categories" /\ dtype = Category /\
  cat_categories x = None /\ categories x = None.
Proof.
  unfold _get_array_check_statistics.
  destruct (bool_decide (dtype ∈ NUMERIC_DTYPES) || bool_decide (dtype = DateTime));
    simpl; [done|].
  destruct (decide (dtype = Category)) as [->|]; simpl; [|done].
  destruct (cat_categories x); simpl; [done|].
  destruct (categories x); simpl; [done|]. by intros [= <-].
Qed.

Lemma infer_columns_raise (df : DataFrame A) items acc e :
  (forall col x, (col, x) ∈ items -> dict_get (df_columns df) col = Some x) ->
  for_each (column_record df)
           (map (fun '(col, x) => (col, _get_array_type x)) items) acc = Raise e ->
  e = AttributeError "categories".
Proof.
  revert acc. induction items as [|[c0 x0] items IH]; intros acc Hget;
    cbn [for_each map]; [done|].
  rewrite (column_record_found df acc c0 x0)
    by (apply Hget, elem_of_cons; by left).
  destruct (_get_array_check_statistics x0 _) as [checks|e'] eqn:Hx0; simpl.
  - apply IH. intros ? ? ?. apply Hget, elem_of_cons. by right.
  - intros [= <-]. by apply _get_array_check_statistics_raise in Hx0 as [-> _].
Qed.

(** On a data frame with distinct column labels the lookups [df[col]] and
    [index.get_level_values(i)] never fail: the only error that
    [infer_dataframe_statistics] can raise is the [AttributeError] of a
    categorical array without categories, and no warning goes with it. *)
Theorem infer_dataframe_statistics_only_error (df : DataFrame A) (e : exn) :
  NoDup (df_columns df).*1 ->
  (infer_dataframe_statistics df).1 = Raise e ->
  e = AttributeError "categories" /\ (infer_dataframe_statistics df).2 = [].
Proof.
  intros Hnd. unfold infer_dataframe_statistics, infer_column_statistics.
  destruct (for_each _ _ ∅) as [m|e'] eqn:Hm; simpl.
  - destruct (df_index df) as [levels|level|type_name].
    + rewrite infer_index_statistics_multi.
      destruct (list_comp _index_stats levels) as [records|e''] eqn:Hrec;
        simpl; [done|].
      intros [= <-]. split; [|done].
      apply list_comp_raise in Hrec as (x & _ & Hx).
      unfold _index_stats in Hx.
      destruct (_get_array_check_statistics x _) as [checks|e3] eqn:Hx0;
        simpl in Hx; [done|].
      injection Hx as <-.
      by apply _get_array_check_statistics_raise in Hx0 as [-> _].
    + unfold infer_index_statistics, _index_stats.
      destruct (_get_array_check_statistics level _) as [checks|e3] eqn:Hx0;
        simpl; [done|].
      intros [= <-]. split; [|done].
      by apply _get_array_check_statistics_raise in Hx0 as [-> _].
    + done.
  - intros [= <-]. split; [|done].
    eapply infer_columns_raise; [|exact Hm].
    intros. by apply dict_get_NoDup.
Qed.

End InferenceErrors.

Lemma infer_dataframe_statistics_only_error_witness :
  (infer_dataframe_statistics
     {| df_columns :=
          [("grade",
            {| series_dtype := "category"; series_name := Some "grade";
               series_values := [StrCell "a"];
               series_categories := None; series_has_cat := true |})];
        df_index := NotAnIndex "<class 'list'>" |}) =
  (Raise (AttributeError "categories"), []).
Proof.
  destruct (infer_dataframe_statistics
     {| df_columns :=
          [("grade",
            {| series_dtype := "category"; series_name := Some "grade";
               series_values := [StrCell "a"];
               series_categories := None; series_has_cat := true |})];
        df_index := NotAnIndex "<class 'list'>" |}) as [r w] eqn:Hrun.
  destruct r as [t|e]; [vm_compute in Hrun; discriminate|].
  pose proof (infer_dataframe_statistics_only_error
    {| df_columns :=
          [("grade",
            {| series_dtype := "category"; series_name := Some "grade";
               series_values := [StrCell "a"];
               series_categories := None; series_has_cat := true |})];
        df_index := NotAnIndex "<class 'list'>" |} e) as Herr.
  rewrite Hrun in Herr. simpl in Herr.
  destruct Herr as [-> ->]; [apply NoDup_singleton | reflexivity | reflexivity].
Defined.
